(** * Data Sweeper: the table-cleaning transforms of [app.py]

    A shallow embedding of the three cleaning functions of the Streamlit
    script ([clean_column_names], [remove_duplicates],
    [handle_missing_values]) and of the [try]/[except] block that drives
    them, together with the pandas operations they call.

    Conventions of the embedding.
    - A Python [str] is a Rocq [string]; its characters are the code points
      U+0000..U+00FF, classified as CPython classifies them ([str.isspace],
      the regex classes [\w] and [\s], [str.lower]).
    - A float64/int64 cell holds an exact rational ([Qc]); the rounding of
      float64 arithmetic and the infinities are not modelled.  [NaN], the
      pandas marker of a missing cell, is [None].
    - A [DataFrame] is its row index and its labelled, typed columns, in
      order.  pandas keeps every column as long as the index; [wf] states
      it.  Column labels are strings. *)

From Stdlib Require Import String Ascii List Bool Arith Lia.
From Stdlib Require Import ZArith QArith Qcanon.
From Stdlib Require Import DecimalString.
From Stdlib Require Import Sorted Permutation.
Import ListNotations.

Open Scope string_scope.
Open Scope list_scope.
Open Scope nat_scope.

(* ------------------------------------------------------------------ *)
(** ** Characters and strings *)

Module Str.

(** [str.isspace] / regex [\s] on U+0000..U+00FF:
    TAB..CR, FS..US, SPACE, NEL and NBSP. *)
Definition isspace (c : ascii) : bool :=
  let n := nat_of_ascii c in
  ((9 <=? n) && (n <=? 13)) || ((28 <=? n) && (n <=? 32))
  || (n =? 133) || (n =? 160).

(** Regex [\w] on U+0000..U+00FF: alphanumeric characters and underscore. *)
Definition isword (c : ascii) : bool :=
  let n := nat_of_ascii c in
  ((48 <=? n) && (n <=? 57)) || ((65 <=? n) && (n <=? 90)) || (n =? 95)
  || ((97 <=? n) && (n <=? 122)) || (n =? 170)
  || ((178 <=? n) && (n <=? 179)) || (n =? 181)
  || ((185 <=? n) && (n <=? 186)) || ((188 <=? n) && (n <=? 190))
  || ((192 <=? n) && (n <=? 214)) || ((216 <=? n) && (n <=? 246))
  || ((248 <=? n) && (n <=? 255)).

(** [str.lower] on one character: A..Z and the Latin-1 capitals
    U+00C0..U+00DE (the multiplication sign U+00D7 apart) move by 32. *)
Definition lower_char (c : ascii) : ascii :=
  let n := nat_of_ascii c in
  if ((65 <=? n) && (n <=? 90))
     || ((192 <=? n) && (n <=? 222) && negb (n =? 215))
  then ascii_of_nat (n + 32) else c.

Definition is_space_char (c : ascii) : bool := Ascii.eqb c " ".

Fixpoint map (f : ascii -> ascii) (s : string) : string :=
  match s with
  | EmptyString => EmptyString
  | String c s' => String (f c) (map f s')
  end.

Fixpoint filter (p : ascii -> bool) (s : string) : string :=
  match s with
  | EmptyString => EmptyString
  | String c s' => if p c then String c (filter p s') else filter p s'
  end.

Fixpoint all_chars (p : ascii -> bool) (s : string) : bool :=
  match s with
  | EmptyString => true
  | String c s' => p c && all_chars p s'
  end.

Fixpoint lstrip (s : string) : string :=
  match s with
  | EmptyString => EmptyString
  | String c s' => if isspace c then lstrip s' else s
  end.

Fixpoint rstrip (s : string) : string :=
  match s with
  | EmptyString => EmptyString
  | String c s' =>
      match rstrip s' with
      | EmptyString => if isspace c then EmptyString else String c EmptyString
      | r => String c r
      end
  end.

(** [s.strip()] *)
Definition strip (s : string) : string := rstrip (lstrip s).

(** [s.lower()] *)
Definition lower (s : string) : string := map lower_char s.

(** [s.replace(' ', '_')]: every occurrence of the one-character pattern. *)
Definition replace_space_underscore (s : string) : string :=
  map (fun c => if is_space_char c then "_"%char else c) s.

(** [re.sub('[^\w\s]', '', s)]: drop what is neither word nor whitespace. *)
Definition remove_non_word_non_space (s : string) : string :=
  filter (fun c => isword c || isspace c) s.

End Str.

(* ------------------------------------------------------------------ *)
(** ** Cells, columns and data frames *)

(** What an [object] column holds in a cell that is not missing: text read
    from the file, or a number put there by [fillna(0)]. *)
Inductive obj : Type :=
| OText (s : string)
| ONum (q : Qc).

(** A column with its dtype.  Only float64 and object columns can hold a
    missing cell. *)
Inductive Series : Type :=
| SNum (xs : list (option Qc))
| SBool (xs : list bool)
| SObj (xs : list (option obj)).

(** A cell as it is seen when a row is read across the columns. *)
Inductive cell : Type :=
| NA
| CNum (q : Qc)
| CBool (b : bool)
| CText (s : string).

Record DataFrame : Type := mkDataFrame {
  index : list nat;
  cols : list (string * Series)
}.

Definition cell_of_num (x : option Qc) : cell :=
  match x with Some q => CNum q | None => NA end.

Definition cell_of_obj (x : option obj) : cell :=
  match x with
  | Some (OText s) => CText s
  | Some (ONum q) => CNum q
  | None => NA
  end.

Definition cells (s : Series) : list cell :=
  match s with
  | SNum xs => List.map cell_of_num xs
  | SBool xs => List.map CBool xs
  | SObj xs => List.map cell_of_obj xs
  end.

Definition series_len (s : Series) : nat := length (cells s).

(** [df.columns] *)
Definition columns (df : DataFrame) : list string := List.map fst (cols df).

Definition series_of (df : DataFrame) : list Series := List.map snd (cols df).

(** [df.shape] *)
Definition nrows (df : DataFrame) : nat := length (index df).
Definition ncols (df : DataFrame) : nat := length (cols df).

(** The pandas invariant: every column is as long as the index. *)
Definition wf (df : DataFrame) : Prop :=
  Forall (fun c => series_len (snd c) = nrows df) (cols df).

(** Row [i], read across the columns. *)
Definition row_at (df : DataFrame) (i : nat) : list cell :=
  List.map (fun c => nth i (cells (snd c)) NA) (cols df).

Definition rows (df : DataFrame) : list (list cell) :=
  List.map (row_at df) (seq 0 (nrows df)).

(* ------------------------------------------------------------------ *)
(** ** [clean_column_names] *)

(** The four string methods chained on [df.columns.str], on one label. *)
Definition clean_name (n : string) : string :=
  Str.remove_non_word_non_space
    (Str.replace_space_underscore (Str.lower (Str.strip n))).

(** [[
def clean_column_names(df):
    df.columns = df.columns.str.strip().str.lower().str.replace(' ', '_')
    df.columns = df.columns.str.replace('[^\w\s]', '', regex=True)
    return df
]] *)
Definition clean_column_names (df : DataFrame) : DataFrame :=
  let df1 :=
    mkDataFrame (index df)
      (List.map (fun c =>
         (Str.replace_space_underscore (Str.lower (Str.strip (fst c))), snd c))
         (cols df)) in
  mkDataFrame (index df1)
    (List.map (fun c => (Str.remove_non_word_non_space (fst c), snd c))
       (cols df1)).

(** The reference transform, as the specification words it: trim, lowercase,
    every whitespace run to one underscore, then drop what is neither
    alphanumeric, underscore nor whitespace. *)
Fixpoint spec_whitespace_runs_to_underscore (s : string) : string :=
  match s with
  | EmptyString => EmptyString
  | String c s' =>
      if Str.isspace c then
        match s' with
        | EmptyString => String "_" EmptyString
        | String c' _ =>
            if Str.isspace c' then spec_whitespace_runs_to_underscore s'
            else String "_" (spec_whitespace_runs_to_underscore s')
        end
      else String c (spec_whitespace_runs_to_underscore s')
  end.

Definition spec_normalize_name (n : string) : string :=
  Str.filter (fun c => Str.isword c || Str.isspace c)
    (spec_whitespace_runs_to_underscore (Str.lower (Str.strip n))).

(** What the code does to a label, said in one pass over the trimmed label:
    a space becomes an underscore, any other character is lowercased and
    kept when it is a word or whitespace character. *)
Fixpoint one_pass_name (s : string) : string :=
  match s with
  | EmptyString => EmptyString
  | String c s' =>
      if Ascii.eqb c " " then String "_" (one_pass_name s')
      else if Str.isword (Str.lower_char c) || Str.isspace (Str.lower_char c)
           then String (Str.lower_char c) (one_pass_name s')
           else one_pass_name s'
  end.

(** The character set [[a-z0-9_]]. *)
Definition is_lower_digit_underscore (c : ascii) : bool :=
  let n := nat_of_ascii c in
  ((97 <=? n) && (n <=? 122)) || ((48 <=? n) && (n <=? 57)) || (n =? 95).


(** Characters of ASCII only. *)
Definition ascii_only (n : string) : bool :=
  Str.all_chars (fun c => nat_of_ascii c <? 128) n.

(** Whitespace limited to the space character. *)
Definition only_space_whitespace (n : string) : bool :=
  Str.all_chars (fun c => negb (Str.isspace c) || Ascii.eqb c " ") n.

(* ------------------------------------------------------------------ *)
(** ** Row selection, [drop_duplicates], [dropna] *)

(** Boolean-mask selection, [xs[mask]]. *)
Fixpoint compress {A : Type} (mask : list bool) (xs : list A) : list A :=
  match mask, xs with
  | b :: m, x :: xs' => if b then x :: compress m xs' else compress m xs'
  | _, _ => []
  end.

Definition take_series (mask : list bool) (s : Series) : Series :=
  match s with
  | SNum xs => SNum (compress mask xs)
  | SBool xs => SBool (compress mask xs)
  | SObj xs => SObj (compress mask xs)
  end.

(** [df[mask]]: labels and dtypes stay, the index keeps its labels. *)
Definition take_rows (mask : list bool) (df : DataFrame) : DataFrame :=
  mkDataFrame (compress mask (index df))
    (List.map (fun c => (fst c, take_series mask (snd c))) (cols df)).

(** Equality of cells as [duplicated] sees it: two missing cells are equal. *)
Definition cell_eqb (a b : cell) : bool :=
  match a, b with
  | NA, NA => true
  | CNum p, CNum q => Qc_eq_bool p q
  | CBool x, CBool y => Bool.eqb x y
  | CText s, CText t => String.eqb s t
  | _, _ => false
  end.

Fixpoint row_eqb (r1 r2 : list cell) : bool :=
  match r1, r2 with
  | [], [] => true
  | a :: r1', b :: r2' => cell_eqb a b && row_eqb r1' r2'
  | _, _ => false
  end.

(** [df.duplicated()], [keep='first']: a row is marked when an equal row
    came before it. *)
Fixpoint duplicated_from (seen rs : list (list cell)) : list bool :=
  match rs with
  | [] => []
  | r :: rs' => existsb (row_eqb r) seen :: duplicated_from (r :: seen) rs'
  end.

Definition duplicated (df : DataFrame) : list bool :=
  duplicated_from [] (rows df).

Definition drop_duplicates (df : DataFrame) : DataFrame :=
  take_rows (List.map negb (duplicated df)) df.

Definition is_na (c : cell) : bool :=
  match c with NA => true | _ => false end.

(** [df.dropna()]: [how='any'] over all the columns. *)
Definition dropna (df : DataFrame) : DataFrame :=
  take_rows (List.map (fun r => negb (existsb is_na r)) (rows df)) df.

(** [df.isnull().values.any()] *)
Definition has_missing (df : DataFrame) : bool :=
  existsb (fun c => existsb is_na (cells (snd c))) (cols df).

(** [str(n)] for a Python int. *)
Definition str_of_int (z : Z) : string := NilZero.string_of_int (Z.to_int z).

(** [[
def remove_duplicates(df):
    original_shape = df.shape[0]
    df = df.drop_duplicates()
    st.info(f"Removed {original_shape - df.shape[0]} duplicate rows")
    return df
]]
    The text passed to [st.info] is returned with the frame. *)
Definition remove_duplicates (df : DataFrame) : DataFrame * string :=
  let original_shape := Z.of_nat (nrows df) in
  let df := drop_duplicates df in
  (df, ("Removed " ++ str_of_int (original_shape - Z.of_nat (nrows df))
          ++ " duplicate rows")%string).

(* ------------------------------------------------------------------ *)
(** ** [mean], [median], [fillna] and [handle_missing_values] *)

(** The cells of a float column that are not missing. *)
Fixpoint nonmissing (xs : list (option Qc)) : list Qc :=
  match xs with
  | [] => []
  | Some q :: xs' => q :: nonmissing xs'
  | None :: xs' => nonmissing xs'
  end.

Definition Qc_of_nat (n : nat) : Qc := Q2Qc (inject_Z (Z.of_nat n)).

Definition qsum (vs : list Qc) : Qc := fold_right Qcplus (Q2Qc 0) vs.

(** The mean of the values present; [NaN] when there is none. *)
Definition mean_of (vs : list Qc) : option Qc :=
  match vs with
  | [] => None
  | _ => Some (Qcdiv (qsum vs) (Qc_of_nat (List.length vs)))
  end.

Definition Qc_leb (a b : Qc) : bool := Qle_bool (this a) (this b).

Fixpoint insert_sorted (x : Qc) (l : list Qc) : list Qc :=
  match l with
  | [] => [x]
  | y :: l' => if Qc_leb x y then x :: l else y :: insert_sorted x l'
  end.

Definition sort_values (l : list Qc) : list Qc :=
  fold_right insert_sorted [] l.

(** The median of the values present: the middle one of the sorted values,
    or the mean of the two middle ones; [NaN] when there is none. *)
Definition median_of (vs : list Qc) : option Qc :=
  match vs with
  | [] => None
  | _ =>
      let s := sort_values vs in
      let n := List.length s in
      if Nat.even n
      then Some (Qcdiv (Qcplus (nth (n / 2 - 1) s (Q2Qc 0))
                               (nth (n / 2) s (Q2Qc 0)))
                       (Qc_of_nat 2))
      else Some (nth (n / 2) s (Q2Qc 0))
  end.

(** [s.mean()] and [s.median()], [skipna=True].  The script asks them of
    the columns that [select_dtypes] lists only; other dtypes answer [NaN]
    here. *)
Definition series_mean (s : Series) : option Qc :=
  match s with SNum xs => mean_of (nonmissing xs) | _ => None end.

Definition series_median (s : Series) : option Qc :=
  match s with SNum xs => median_of (nonmissing xs) | _ => None end.

(** [s.fillna(v)] for a float [v]; [v = NaN] leaves the column as it is. *)
Definition series_fillna (v : option Qc) (s : Series) : Series :=
  match s with
  | SNum xs =>
      SNum (List.map (fun x => match x with None => v | Some _ => x end) xs)
  | SBool xs => SBool xs
  | SObj xs =>
      SObj (List.map (fun x => match x with
                               | None => option_map ONum v
                               | Some _ => x
                               end) xs)
  end.

(** [df.fillna(0)] *)
Definition fillna_zero (df : DataFrame) : DataFrame :=
  mkDataFrame (index df)
    (List.map (fun c => (fst c, series_fillna (Some (Q2Qc 0)) (snd c)))
       (cols df)).

Definition is_number_dtype (s : Series) : bool :=
  match s with SNum _ => true | _ => false end.

(** [df.select_dtypes(include=[np.number]).columns] *)
Definition numeric_columns (df : DataFrame) : list string :=
  List.map fst (List.filter (fun c => is_number_dtype (snd c)) (cols df)).

(** [df[col]], for a label that names one column. *)
Definition getitem (df : DataFrame) (col : string) : option Series :=
  option_map snd (List.find (fun c => String.eqb (fst c) col) (cols df)).

(** [df[col] = s], for a label the frame has. *)
Definition setitem (df : DataFrame) (col : string) (s : Series) : DataFrame :=
  mkDataFrame (index df)
    (List.map (fun c => if String.eqb (fst c) col then (fst c, s) else c)
       (cols df)).

(** [[
for col in df.select_dtypes(include=[np.number]).columns:
    df[col] = df[col].fillna(df[col].<stat>())
]] *)
Definition fill_numeric (stat : Series -> option Qc) (df : DataFrame)
  : DataFrame :=
  fold_left
    (fun d col =>
       match getitem d col with
       | Some s => setitem d col (series_fillna (stat s) s)
       | None => d
       end)
    (numeric_columns df) df.

(** [[
def handle_missing_values(df, method):
    if method == 'Remove rows':
        df = df.dropna()
    elif method == 'Fill with mean':
        for col in df.select_dtypes(include=[np.number]).columns:
            df[col] = df[col].fillna(df[col].mean())
    elif method == 'Fill with median':
        for col in df.select_dtypes(include=[np.number]).columns:
            df[col] = df[col].fillna(df[col].median())
    elif method == 'Fill with zero':
        df = df.fillna(0)
    return df
]] *)
Definition handle_missing_values (df : DataFrame) (method : string)
  : DataFrame :=
  if String.eqb method "Remove rows" then dropna df
  else if String.eqb method "Fill with mean" then fill_numeric series_mean df
  else if String.eqb method "Fill with median"
       then fill_numeric series_median df
  else if String.eqb method "Fill with zero" then fillna_zero df
  else df.

(** The four policies, as the selectbox offers them. *)
Definition RemoveRows : string := "Remove rows".
Definition FillMean : string := "Fill with mean".
Definition FillMedian : string := "Fill with median".
Definition FillZero : string := "Fill with zero".

(** Number of missing cells of a frame. *)
Definition count_missing (df : DataFrame) : nat :=
  list_sum (List.map (fun c => List.length (List.filter is_na (cells (snd c))))
              (cols df)).

(* ------------------------------------------------------------------ *)
(** ** The script: what runs once a file is uploaded *)

Record UploadedFile : Type := mkUploadedFile {
  name : string;
  content : string
}.

(** The state of the widgets for one run of the script. *)
Record Widgets : Type := mkWidgets {
  clean_cols : bool;
  remove_dups : bool;
  missing_choice : nat;
  x_choice : nat;
  y_choice : nat;
  plot_choice : nat
}.

(** A plotly express figure: the call that made it. *)
Record Figure : Type := mkFigure {
  fig_kind : string;
  fig_data : DataFrame;
  fig_x : string;
  fig_y : option string
}.

(** What the script puts on the page. *)
Inductive element : Type :=
| StMarkdown (html : string)
| StDataframe (df : DataFrame)
| StInfo (msg : string)
| StPlotlyChart (fig : Figure)
| StDownloadButton (label data file_name mime : string)
| StError (msg : string).

(** The calls into pandas, plotly and the transforms, in pipeline order. *)
Inductive stage : Type :=
| Ingest | Preview | CleanNames | Dedup | Missing | Chart
| ExportCsv | ExportExcel.

(** The trace of a run: the elements shown and the library calls made. *)
Inductive item : Type :=
| Shown (el : element)
| Called (s : stage).

(** A computation that may raise: the trace so far, then the description
    of the exception ([str(e)]) or the value. *)
Definition Run (A : Type) : Type := list item * (string + A).

Definition ret {A : Type} (a : A) : Run A := ([], inr a).

Definition raise {A : Type} (e : string) : Run A := ([], inl e).

Definition bind {A B : Type} (c : Run A) (k : A -> Run B) : Run B :=
  match c with
  | (tr, inl e) => (tr, inl e)
  | (tr, inr a) => let (tr', r) := k a in (tr ++ tr', r)
  end.

Declare Scope run_scope.
Delimit Scope run_scope with run.
Notation "x <- c ;; k" := (bind c (fun x => k))
  (at level 61, c at next level, right associativity) : run_scope.
Notation "c ;;; k" := (bind c (fun _ => k))
  (at level 61, right associativity) : run_scope.

Definition show (el : element) : Run unit := ([Shown el], inr tt).

(** [[
try:
    body
except Exception as e:
    st.error(f"An error occurred: {str(e)}")
]] *)
Definition try_except (body : Run unit) : list item :=
  match body with
  | (tr, inr _) => tr
  | (tr, inl e) => tr ++ [Shown (StError ("An error occurred: " ++ e)%string)]
  end.

(** [<p class="sub-header">title</p>], the markup of a section header. *)
Definition sub_header (title : string) : string :=
  let quote := String (ascii_of_nat 34) EmptyString in
  ("<p class=" ++ quote ++ "sub-header" ++ quote ++ ">" ++ title ++ "</p>")%string.

(** [s.endswith(suffix)] *)
Fixpoint endswith (s suffix : string) : bool :=
  String.eqb s suffix
  || match s with
     | EmptyString => false
     | String _ s' => endswith s' suffix
     end.

(** [df.head()] *)
Definition head (df : DataFrame) : DataFrame :=
  take_rows (List.map (fun i => i <? 5) (seq 0 (nrows df))) df.

(** [st.selectbox(label, options)]: the option picked, the first by
    default. *)
Definition selectbox (options : list string) (choice : nat) : string :=
  nth choice options (hd EmptyString options).

Definition missing_methods : list string :=
  ["Remove rows"; "Fill with mean"; "Fill with median"; "Fill with zero"].

Definition plot_types : list string :=
  ["Scatter"; "Line"; "Bar"; "Box"; "Histogram"].

(** The [if]/[elif] chain over [plot_type]. *)
Definition make_figure (plot_type : string) (df : DataFrame)
  (x_col y_col : string) : Figure :=
  if String.eqb plot_type "Scatter" then mkFigure "scatter" df x_col (Some y_col)
  else if String.eqb plot_type "Line" then mkFigure "line" df x_col (Some y_col)
  else if String.eqb plot_type "Bar" then mkFigure "bar" df x_col (Some y_col)
  else if String.eqb plot_type "Box" then mkFigure "box" df x_col (Some y_col)
  else mkFigure "histogram" df x_col None.

Section Script.

(** The decoders and encoders of pandas, on the bytes of the file. *)
Variable read_csv read_excel : string -> DataFrame.
Variable to_csv to_excel : DataFrame -> string.

(** [fault s] is the exception, if any, that the library raises in the
    call of stage [s]: a file that does not parse, labels that are not
    strings, a writer that is not installed. *)
Variable fault : stage -> option string.

(** A library call: it raises, or it returns its result. *)
Definition call {A : Type} (s : stage) (result : A) : Run A :=
  match fault s with
  | Some e => ([Called s], inl e)
  | None => ([Called s], inr result)
  end.

Local Open Scope run_scope.

(** The body of the [try], lines 128 to 228. *)
Definition body (uploaded_file : UploadedFile) (w : Widgets) : Run unit :=
  df <- call Ingest
          (if endswith (name uploaded_file) ".csv"
           then read_csv (content uploaded_file)
           else read_excel (content uploaded_file)) ;;
  show (StMarkdown (sub_header "Data Preview")) ;;;
  preview <- call Preview (head df) ;;
  show (StDataframe preview) ;;;
  show (StMarkdown (sub_header "Data Cleaning Options")) ;;;
  df <- (if clean_cols w
         then call CleanNames (clean_column_names df)
         else ret df) ;;
  df <- (if remove_dups w
         then r <- call Dedup (remove_duplicates df) ;;
              show (StInfo (snd r)) ;;;
              ret (fst r)
         else ret df) ;;
  df <- (if has_missing df
         then call Missing
                (handle_missing_values df
                   (selectbox missing_methods (missing_choice w)))
         else ret df) ;;
  show (StMarkdown (sub_header "Data Visualization")) ;;;
  (let numeric_cols := numeric_columns df in
   if 0 <? List.length numeric_cols
   then
     let x_col := selectbox (columns df) (x_choice w) in
     let y_col := selectbox numeric_cols (y_choice w) in
     let plot_type := selectbox plot_types (plot_choice w) in
     fig <- call Chart (make_figure plot_type df x_col y_col) ;;
     show (StPlotlyChart fig)
   else ret tt) ;;;
  show (StMarkdown (sub_header "Download Cleaned Data")) ;;;
  csv <- call ExportCsv (to_csv df) ;;
  show (StDownloadButton "Download as CSV" csv "cleaned_data.csv" "text/csv") ;;;
  excel_data <- call ExportExcel (to_excel df) ;;
  show (StDownloadButton "Download as Excel" excel_data "cleaned_data.xlsx"
          "application/vnd.ms-excel").

(** [[
if uploaded_file is not None:
    try: ... except Exception as e: st.error(...)
]] *)
Definition script (uploaded_file : option UploadedFile) (w : Widgets)
  : list item :=
  match uploaded_file with
  | None => []
  | Some f => try_except (body f w)
  end.

End Script.


Definition no_fault : stage -> option string := fun _ => None.

(* ------------------------------------------------------------------ *)
(** ** Auxiliary definitions of the proofs *)

Definition space_to_underscore (c : ascii) : ascii :=
  if Str.is_space_char c then "_"%char else c.

Definition kept (c : ascii) : bool := Str.isword c || Str.isspace c.

(** A character that a second cleaning leaves where it is. *)
Definition settled (c : ascii) : bool :=
  Str.isword c && negb (Str.isspace c) && Ascii.eqb (Str.lower_char c) c.

(** A frame whose one label has two spaces in a row. *)
Definition two_spaces : DataFrame :=
  mkDataFrame [0] [("a  b", SNum [Some (Q2Qc 1)])].

Definition tab : ascii := ascii_of_nat 9.


(** A frame whose label starts with punctuation and a tab. *)
Definition tab_after_mark : DataFrame :=
  mkDataFrame [0] [(String "!" (String tab "a"), SNum [Some (Q2Qc 1)])].

(** The label of the specification's own scenario. *)
Definition total_sales : DataFrame :=
  mkDataFrame [0; 1]
    [(" Total Sales! ", SNum [Some (Q2Qc 1); None]);
     ("Region", SObj [Some (OText "north"); None])].

(** The duplicate-row scenario: rows (1,a), (1,a), (2,b). *)
Definition dup_rows : DataFrame :=
  mkDataFrame [0; 1; 2]
    [("id", SNum [Some (Q2Qc 1); Some (Q2Qc 1); Some (Q2Qc 2)]);
     ("tag", SObj [Some (OText "a"); Some (OText "a"); Some (OText "b")])].

(** Three rows, the second with a missing number, the third with a missing
    text. *)
Definition with_gaps : DataFrame :=
  mkDataFrame [0; 1; 2]
    [("qty", SNum [Some (Q2Qc 1); None; Some (Q2Qc 3)]);
     ("tag", SObj [Some (OText "a"); Some (OText "b"); None]);
     ("ok", SBool [true; false; true])].

(** What [fillna(0)] makes of a cell. *)
Definition zero_if_missing (x : cell) : cell :=
  if is_na x then CNum (Q2Qc 0) else x.

(** One turn of the loop of [fill_numeric], and what it does to a column. *)
Definition fill_series (stat : Series -> option Qc) (s : Series) : Series :=
  series_fillna (stat s) s.

Definition fill_step (stat : Series -> option Qc) (d : DataFrame)
  (col : string) : DataFrame :=
  match getitem d col with
  | Some s => setitem d col (series_fillna (stat s) s)
  | None => d
  end.

(** The numeric column 1, missing, 3 of the specification, beside a text
    column with a missing cell. *)
Definition one_gap_three : DataFrame :=
  mkDataFrame [0; 1; 2]
    [("x", SNum [Some (Q2Qc 1); None; Some (Q2Qc 3)]);
     ("note", SObj [Some (OText "a"); None; Some (OText "c")])].

(** A numeric column with no value at all. *)
Definition all_gaps : DataFrame :=
  mkDataFrame [0; 1]
    [("x", SNum [None; None]); ("y", SNum [Some (Q2Qc 5); None])].




(** A run whose file does not parse: [read_csv] raises. *)
Definition unreadable (s : stage) : option string :=
  match s with Ingest => Some "No columns to parse from file" | _ => None end.

Definition report_csv : UploadedFile := mkUploadedFile "report.csv" "".

Definition all_options : Widgets := mkWidgets true true 1 0 0 0.

(* ------------------------------------------------------------------ *)
(** ** Auxiliary definitions: the pipeline as one function *)

(** The frame the script reads from the uploaded file (lines 129 to 132). *)
Definition uploaded_frame (read_csv read_excel : string -> DataFrame)
  (f : UploadedFile) : DataFrame :=
  if endswith (name f) ".csv" then read_csv (content f)
  else read_excel (content f).

(** The frame that reaches the chart and the downloads when no call
    raises: names, then duplicates, then missing values (lines 144 to
    160). *)
Definition cleaned_frame (df : DataFrame) (w : Widgets) : DataFrame :=
  let df1 := if clean_cols w then clean_column_names df else df in
  let df2 := if remove_dups w then fst (remove_duplicates df1) else df1 in
  if has_missing df2
  then handle_missing_values df2 (selectbox missing_methods (missing_choice w))
  else df2.

Definition is_download (it : item) : bool :=
  match it with Shown (StDownloadButton _ _ _ _) => true | _ => false end.


Definition is_info (it : item) : bool :=
  match it with Shown (StInfo _) => true | _ => false end.



(** Seven rows, to look at [head]. *)
Definition seven_rows : DataFrame :=
  mkDataFrame [0; 1; 2; 3; 4; 5; 6]
    [("n", SNum [Some (Q2Qc 1); Some (Q2Qc 2); Some (Q2Qc 3); Some (Q2Qc 4);
                 Some (Q2Qc 5); Some (Q2Qc 6); Some (Q2Qc 7)])].

(** The figure the script draws of a frame. *)
Definition figure_of (df : DataFrame) (w : Widgets) : Figure :=
  make_figure (selectbox plot_types (plot_choice w)) df
    (selectbox (columns df) (x_choice w))
    (selectbox (numeric_columns df) (y_choice w)).

(** The trace of a run in which no call raises, part by part. *)
Definition calm_page (to_csv to_excel : DataFrame -> string)
  (df : DataFrame) (w : Widgets) : list item :=
  let df1 := if clean_cols w then clean_column_names df else df in
  let df2 := if remove_dups w then fst (remove_duplicates df1) else df1 in
  let final := cleaned_frame df w in
  [Called Ingest; Shown (StMarkdown (sub_header "Data Preview"));
   Called Preview; Shown (StDataframe (head df));
   Shown (StMarkdown (sub_header "Data Cleaning Options"))]
  ++ (if clean_cols w then [Called CleanNames] else [])
  ++ (if remove_dups w
      then [Called Dedup; Shown (StInfo (snd (remove_duplicates df1)))]
      else [])
  ++ (if has_missing df2 then [Called Missing] else [])
  ++ [Shown (StMarkdown (sub_header "Data Visualization"))]
  ++ (if 0 <? List.length (numeric_columns final)
      then [Called Chart; Shown (StPlotlyChart (figure_of final w))]
      else [])
  ++ [Shown (StMarkdown (sub_header "Download Cleaned Data"));
      Called ExportCsv;
      Shown (StDownloadButton "Download as CSV" (to_csv final)
               "cleaned_data.csv" "text/csv");
      Called ExportExcel;
      Shown (StDownloadButton "Download as Excel" (to_excel final)
               "cleaned_data.xlsx" "application/vnd.ms-excel")].
(* ================================================================== *)
(** * Properties *)

(* ------------------------------------------------------------------ *)
(** ** Column names *)

(** Case analysis over the 256 characters. *)
Ltac each_char c :=
  destruct c as [b0 b1 b2 b3 b4 b5 b6 b7];
  destruct b0, b1, b2, b3, b4, b5, b6, b7.

Lemma one_pass_char (c : ascii) (rest : string) :
  (if kept (space_to_underscore (Str.lower_char c))
   then String (space_to_underscore (Str.lower_char c)) rest else rest)
  = (if Ascii.eqb c " " then String "_" rest
     else if Str.isword (Str.lower_char c) || Str.isspace (Str.lower_char c)
          then String (Str.lower_char c) rest
          else rest).
Proof. each_char c; reflexivity. Qed.


Lemma kept_is_settled (c : ascii) :
  implb ((negb (Str.isspace c) || Ascii.eqb c " ")
         && kept (space_to_underscore (Str.lower_char c)))
        (settled (space_to_underscore (Str.lower_char c))) = true.
Proof. each_char c; reflexivity. Qed.

Lemma settled_fixed (c : ascii) :
  implb (settled c)
        (Ascii.eqb (space_to_underscore (Str.lower_char c)) c
         && kept c && negb (Str.isspace c)) = true.
Proof. each_char c; reflexivity. Qed.

Lemma clean_name_unfold (n : string) :
  clean_name n
  = Str.filter kept (Str.map (fun c => space_to_underscore (Str.lower_char c))
                       (Str.strip n)).
Proof.
  unfold clean_name, Str.remove_non_word_non_space,
    Str.replace_space_underscore, Str.lower.
  generalize (Str.strip n) as s.
  induction s as [|c s IH]; simpl; [reflexivity|].
  unfold kept, space_to_underscore in *.
  destruct (_ || _); rewrite IH; reflexivity.
Qed.

Lemma clean_name_one_pass (n : string) :
  clean_name n = one_pass_name (Str.strip n).
Proof.
  rewrite clean_name_unfold.
  generalize (Str.strip n) as s.
  induction s as [|c s IH]; simpl; [reflexivity|].
  rewrite IH. apply one_pass_char.
Qed.

Lemma all_chars_impl (p q : ascii -> bool) (s : string) :
  (forall c, p c = true -> q c = true) ->
  Str.all_chars p s = true -> Str.all_chars q s = true.
Proof.
  intros Hpq. induction s as [|c s IH]; simpl; [reflexivity|].
  rewrite !andb_true_iff. intros [Hc Hs]. auto.
Qed.

Lemma all_chars_filter_map (p q r : ascii -> bool) (f : ascii -> ascii)
  (s : string) :
  (forall c, p c = true -> q (f c) = true -> r (f c) = true) ->
  Str.all_chars p s = true ->
  Str.all_chars r (Str.filter q (Str.map f s)) = true.
Proof.
  intros H. induction s as [|c s IH]; simpl; [reflexivity|].
  rewrite andb_true_iff. intros [Hc Hs].
  destruct (q (f c)) eqn:E; simpl; auto.
  rewrite (H c Hc E). auto.
Qed.

Lemma all_chars_lstrip (p : ascii -> bool) (s : string) :
  Str.all_chars p s = true -> Str.all_chars p (Str.lstrip s) = true.
Proof.
  induction s as [|c s IH]; simpl; [reflexivity|].
  destruct (Str.isspace c); simpl; [|tauto].
  rewrite andb_true_iff. intros [_ Hs]. auto.
Qed.

Lemma all_chars_rstrip (p : ascii -> bool) (s : string) :
  Str.all_chars p s = true -> Str.all_chars p (Str.rstrip s) = true.
Proof.
  induction s as [|c s IH]; simpl; [reflexivity|].
  rewrite andb_true_iff. intros [Hc Hs]. specialize (IH Hs).
  destruct (Str.rstrip s) as [|c' r].
  - destruct (Str.isspace c); simpl; [reflexivity|].
    rewrite Hc. reflexivity.
  - cbn [Str.all_chars] in *. rewrite Hc, IH. reflexivity.
Qed.

Lemma all_chars_strip (p : ascii -> bool) (s : string) :
  Str.all_chars p s = true -> Str.all_chars p (Str.strip s) = true.
Proof.
  intros H. unfold Str.strip. apply all_chars_rstrip, all_chars_lstrip, H.
Qed.

Lemma rstrip_no_space (s : string) :
  Str.all_chars (fun c => negb (Str.isspace c)) s = true -> Str.rstrip s = s.
Proof.
  induction s as [|c s IH]; simpl; [reflexivity|].
  rewrite andb_true_iff, negb_true_iff. intros [Hc Hs].
  rewrite (IH Hs). destruct s; [rewrite Hc|]; reflexivity.
Qed.

Lemma lstrip_no_space (s : string) :
  Str.all_chars (fun c => negb (Str.isspace c)) s = true -> Str.lstrip s = s.
Proof.
  destruct s as [|c s]; simpl; [reflexivity|].
  rewrite andb_true_iff, negb_true_iff. intros [Hc _].
  rewrite Hc. reflexivity.
Qed.

Lemma map_fixed (f : ascii -> ascii) (s : string) :
  Str.all_chars (fun c => Ascii.eqb (f c) c) s = true -> Str.map f s = s.
Proof.
  induction s as [|c s IH]; simpl; [reflexivity|].
  rewrite andb_true_iff, Ascii.eqb_eq. intros [Hc Hs].
  rewrite Hc, (IH Hs). reflexivity.
Qed.

Lemma filter_all (p : ascii -> bool) (s : string) :
  Str.all_chars p s = true -> Str.filter p s = s.
Proof.
  induction s as [|c s IH]; simpl; [reflexivity|].
  rewrite andb_true_iff. intros [Hc Hs].
  rewrite Hc, (IH Hs). reflexivity.
Qed.

Lemma clean_name_settled (n : string) :
  only_space_whitespace n = true ->
  Str.all_chars settled (clean_name n) = true.
Proof.
  intros H. rewrite clean_name_unfold.
  apply all_chars_filter_map
    with (p := fun c => negb (Str.isspace c) || Ascii.eqb c " ").
  - intros c Hc Hk. pose proof (kept_is_settled c) as K.
    rewrite Hc, Hk in K. exact K.
  - apply all_chars_strip. exact H.
Qed.

Lemma settled_clean_name (r : string) :
  Str.all_chars settled r = true -> clean_name r = r.
Proof.
  intros H.
  assert (F : forall c, settled c = true ->
            Ascii.eqb (space_to_underscore (Str.lower_char c)) c = true
            /\ kept c = true /\ negb (Str.isspace c) = true).
  { intros c Hc. pose proof (settled_fixed c) as K. rewrite Hc in K.
    simpl in K. rewrite !andb_true_iff in K. tauto. }
  rewrite clean_name_unfold. unfold Str.strip.
  rewrite lstrip_no_space, rstrip_no_space, map_fixed, filter_all;
    try reflexivity;
    (eapply all_chars_impl; [|exact H]); intros c Hc; apply F; exact Hc.
Qed.

Lemma cols_clean_column_names (df : DataFrame) :
  cols (clean_column_names df)
  = List.map (fun c => (clean_name (fst c), snd c)) (cols df).
Proof.
  unfold clean_column_names. simpl. rewrite map_map. reflexivity.
Qed.

Lemma columns_clean_column_names (df : DataFrame) :
  columns (clean_column_names df) = List.map clean_name (columns df).
Proof.
  unfold columns. rewrite cols_clean_column_names, !map_map. reflexivity.
Qed.

Lemma row_at_clean_column_names (df : DataFrame) (i : nat) :
  row_at (clean_column_names df) i = row_at df i.
Proof.
  unfold row_at. rewrite cols_clean_column_names, map_map. reflexivity.
Qed.

(** C1, as stated, fails: the label [a  b] (two spaces) is cleaned to
    [a__b], where the reference transform gives [a_b]. *)
Lemma clean_column_names_not_reference :
  columns (clean_column_names two_spaces) = ["a__b"]
  /\ List.map spec_normalize_name (columns two_spaces) = ["a_b"]
  /\ columns (clean_column_names two_spaces)
     <> List.map spec_normalize_name (columns two_spaces).
Proof.
  split; [reflexivity|]. split; [reflexivity|].
  vm_compute. discriminate.
Qed.

(** C1, amended: cleaning the column names keeps the index, every column
    with its cells, the rows and both counts, and turns each label into its
    trimmed form with every space character replaced by one underscore,
    every other character lowercased, and what is then neither a word nor a
    whitespace character dropped. *)
Theorem clean_column_names_spec (df : DataFrame) :
  index (clean_column_names df) = index df
  /\ series_of (clean_column_names df) = series_of df
  /\ rows (clean_column_names df) = rows df
  /\ nrows (clean_column_names df) = nrows df
  /\ ncols (clean_column_names df) = ncols df
  /\ columns (clean_column_names df)
     = List.map (fun n => one_pass_name (Str.strip n)) (columns df).
Proof.
  assert (Hi : index (clean_column_names df) = index df) by reflexivity.
  split; [exact Hi|].
  split.
  { unfold series_of. rewrite cols_clean_column_names, map_map.
    reflexivity. }
  split.
  { unfold rows, nrows. rewrite Hi. apply map_ext.
    apply row_at_clean_column_names. }
  split; [unfold nrows; rewrite Hi; reflexivity|].
  split.
  { unfold ncols. rewrite cols_clean_column_names. apply length_map. }
  rewrite columns_clean_column_names. apply map_ext. apply clean_name_one_pass.
Qed.



Lemma kept_ascii_is_plain (c : ascii) :
  implb ((nat_of_ascii c <? 128)
         && (negb (Str.isspace c) || Ascii.eqb c " ")
         && kept (space_to_underscore (Str.lower_char c)))
        (is_lower_digit_underscore (space_to_underscore (Str.lower_char c)))
  = true.
Proof. each_char c; reflexivity. Qed.

Lemma all_chars_andb (p q : ascii -> bool) (s : string) :
  Str.all_chars p s = true -> Str.all_chars q s = true ->
  Str.all_chars (fun c => p c && q c) s = true.
Proof.
  induction s as [|c s IH]; simpl; [reflexivity|].
  rewrite !andb_true_iff. intros [Hp Hs] [Hq Hs']. auto.
Qed.

(** Where C6 holds as stated: an ASCII label whose only whitespace is the
    space is cleaned to a label over [[a-z0-9_]]. *)
Lemma clean_name_ascii_charset (n : string) :
  ascii_only n = true -> only_space_whitespace n = true ->
  Str.all_chars is_lower_digit_underscore (clean_name n) = true.
Proof.
  intros Ha Hs. rewrite clean_name_unfold.
  apply all_chars_filter_map
    with (p := fun c => (nat_of_ascii c <? 128)
                        && (negb (Str.isspace c) || Ascii.eqb c " ")).
  - intros c Hc Hk. pose proof (kept_ascii_is_plain c) as K.
    rewrite Hc, Hk in K. exact K.
  - apply all_chars_strip. apply all_chars_andb; assumption.
Qed.

(** The scenario of the specification: the code and the reference transform
    agree on it. *)
Lemma clean_name_total_sales :
  clean_name " Total Sales! " = "total_sales"
  /\ spec_normalize_name " Total Sales! " = "total_sales".
Proof. split; reflexivity. Qed.

(** C7, as stated, fails: the label made of an exclamation mark, a tab and
    [a] is cleaned to tab-[a], and cleaned once more to [a]. *)
Lemma clean_column_names_not_idempotent :
  columns (clean_column_names tab_after_mark) = [String tab "a"]
  /\ columns (clean_column_names (clean_column_names tab_after_mark)) = ["a"]
  /\ clean_column_names (clean_column_names tab_after_mark)
     <> clean_column_names tab_after_mark.
Proof.
  split; [reflexivity|]. split; [reflexivity|].
  intros H. apply (f_equal columns) in H. vm_compute in H. discriminate.
Qed.

(** C7, amended: on a table whose column names hold no whitespace character
    other than the space, cleaning the column names twice gives what
    cleaning them once gives. *)
Theorem clean_column_names_idempotent (df : DataFrame) :
  Forall (fun n => only_space_whitespace n = true) (columns df) ->
  clean_column_names (clean_column_names df) = clean_column_names df.
Proof.
  intros H.
  assert (E : cols (clean_column_names (clean_column_names df))
              = cols (clean_column_names df)).
  { rewrite (cols_clean_column_names (clean_column_names df)).
    rewrite cols_clean_column_names, map_map. apply map_ext_in.
    intros c Hc. simpl. f_equal.
    apply settled_clean_name, clean_name_settled.
    rewrite Forall_forall in H. apply H. unfold columns.
    apply in_map. exact Hc. }
  destruct (clean_column_names (clean_column_names df)) as [i1 c1] eqn:E1.
  destruct (clean_column_names df) as [i2 c2] eqn:E2.
  simpl in E. subst c2. f_equal.
  pose proof (f_equal index E1) as Hi1. pose proof (f_equal index E2) as Hi2.
  simpl in Hi1, Hi2. rewrite <- Hi1, <- Hi2. reflexivity.
Qed.

Lemma clean_column_names_idempotent_witness :
  Forall (fun n => only_space_whitespace n = true) (columns total_sales)
  /\ columns (clean_column_names total_sales) = ["total_sales"; "region"]
  /\ clean_column_names (clean_column_names total_sales)
     = clean_column_names total_sales.
Proof.
  assert (H : Forall (fun n => only_space_whitespace n = true)
                (columns total_sales)).
  { repeat constructor. }
  split; [exact H|]. split; [reflexivity|].
  apply (clean_column_names_idempotent total_sales H).
Defined.

(* ------------------------------------------------------------------ *)
(** ** Selecting rows with a mask *)

Lemma compress_map {A B : Type} (f : A -> B) (mask : list bool) (xs : list A) :
  compress mask (List.map f xs) = List.map f (compress mask xs).
Proof.
  revert xs. induction mask as [|b m IH]; intros [|x xs]; simpl; auto.
  destruct b; simpl; rewrite IH; reflexivity.
Qed.

Lemma length_compress_le {A : Type} (mask : list bool) (xs : list A) :
  List.length (compress mask xs) <= List.length xs.
Proof.
  revert xs. induction mask as [|b m IH]; intros [|x xs]; simpl; try lia.
  specialize (IH xs). destruct b; simpl; lia.
Qed.

Lemma length_compress_eq {A B : Type} (mask : list bool)
  (xs : list A) (ys : list B) :
  List.length xs = List.length ys ->
  List.length (compress mask xs) = List.length (compress mask ys).
Proof.
  revert xs ys. induction mask as [|b m IH]; intros [|x xs] [|y ys]; simpl;
    try discriminate; auto.
  intros H. injection H as H. destruct b; simpl; auto.
Qed.

Lemma in_compress {A : Type} (mask : list bool) (xs : list A) (x : A) :
  In x (compress mask xs) ->
  exists k, nth_error mask k = Some true /\ nth_error xs k = Some x.
Proof.
  revert xs. induction mask as [|b m IH]; intros [|y xs]; simpl;
    try contradiction.
  destruct b; simpl.
  - intros [->|H]; [exists 0; auto|].
    destruct (IH _ H) as [k Hk]. exists (S k). exact Hk.
  - intros H. destruct (IH _ H) as [k Hk]. exists (S k). exact Hk.
Qed.

Lemma nth_map_in {A B : Type} (f : A -> B) (l : list A) (i : nat)
  (d : B) (d' : A) :
  i < List.length l -> nth i (List.map f l) d = f (nth i l d').
Proof.
  revert i. induction l as [|x l IH]; intros i Hi; simpl in *; [lia|].
  destruct i; [reflexivity|]. apply IH. lia.
Qed.

Lemma list_as_map_nth {A : Type} (d : A) (l : list A) :
  l = List.map (fun i => nth i l d) (seq 0 (List.length l)).
Proof.
  apply nth_ext with (d := d) (d' := d).
  - rewrite length_map, length_seq. reflexivity.
  - intros n Hn.
    rewrite nth_map_in with (d' := 0) by (rewrite length_seq; exact Hn).
    rewrite seq_nth by exact Hn. reflexivity.
Qed.

Lemma cells_take_series (mask : list bool) (s : Series) :
  cells (take_series mask s) = compress mask (cells s).
Proof. destruct s; simpl; symmetry; apply compress_map. Qed.

Lemma nrows_take_rows (mask : list bool) (df : DataFrame) :
  nrows (take_rows mask df) <= nrows df.
Proof. unfold nrows. simpl. apply length_compress_le. Qed.

Lemma columns_take_rows (mask : list bool) (df : DataFrame) :
  columns (take_rows mask df) = columns df.
Proof. unfold columns. simpl. rewrite map_map. reflexivity. Qed.

Lemma wf_take_rows (mask : list bool) (df : DataFrame) :
  wf df -> wf (take_rows mask df).
Proof.
  unfold wf, nrows. simpl. intros H. apply Forall_map. simpl.
  eapply Forall_impl; [|exact H]. intros c Hc. unfold series_len in *.
  rewrite cells_take_series. apply length_compress_eq. exact Hc.
Qed.

(** Selecting rows column by column selects the rows. *)
Lemma rows_take_rows (mask : list bool) (df : DataFrame) :
  wf df -> rows (take_rows mask df) = compress mask (rows df).
Proof.
  intros Hwf. unfold rows at 2. rewrite compress_map.
  set (P := compress mask (seq 0 (nrows df))).
  rewrite (list_as_map_nth 0 P) at 1. rewrite map_map.
  unfold rows.
  assert (HL : nrows (take_rows mask df) = List.length P).
  { unfold nrows, P. simpl. apply length_compress_eq.
    rewrite length_seq. reflexivity. }
  rewrite HL. apply map_ext_in. intros j Hj. apply in_seq in Hj.
  unfold row_at. simpl. rewrite map_map. apply map_ext_in.
  intros c Hc. simpl. rewrite cells_take_series.
  unfold wf in Hwf. rewrite Forall_forall in Hwf. specialize (Hwf c Hc).
  unfold series_len in Hwf.
  rewrite (list_as_map_nth NA (cells (snd c))) at 1.
  rewrite Hwf, compress_map. fold P.
  rewrite nth_map_in with (d' := 0) by lia. reflexivity.
Qed.

Lemma nth_rows (df : DataFrame) (i : nat) :
  i < nrows df -> nth i (rows df) [] = row_at df i.
Proof.
  intros H. unfold rows.
  rewrite nth_map_in with (d' := 0) by (rewrite length_seq; exact H).
  rewrite seq_nth by exact H. reflexivity.
Qed.

Lemma length_rows (df : DataFrame) : List.length (rows df) = nrows df.
Proof. unfold rows. rewrite length_map, length_seq. reflexivity. Qed.

(* ------------------------------------------------------------------ *)
(** ** Duplicate rows *)

Lemma cell_eqb_eq (a b : cell) : cell_eqb a b = true <-> a = b.
Proof.
  destruct a, b; simpl; split; intros H; try discriminate; try reflexivity.
  - apply Qc_eq_bool_correct in H. congruence.
  - injection H as ->. unfold Qc_eq_bool.
    destruct (Qc_eq_dec q0 q0); congruence.
  - apply Bool.eqb_prop in H. congruence.
  - injection H as ->. apply Bool.eqb_reflx.
  - apply String.eqb_eq in H. congruence.
  - injection H as ->. apply String.eqb_refl.
Qed.

Lemma row_eqb_eq (r1 r2 : list cell) : row_eqb r1 r2 = true <-> r1 = r2.
Proof.
  revert r2. induction r1 as [|a r1 IH]; intros [|b r2]; simpl;
    split; intros H; try discriminate; try reflexivity.
  - apply andb_true_iff in H. destruct H as [Ha Hr].
    apply cell_eqb_eq in Ha. apply IH in Hr. congruence.
  - injection H as -> ->. apply andb_true_iff. split.
    + apply cell_eqb_eq. reflexivity.
    + apply IH. reflexivity.
Qed.

Lemma existsb_row_eqb (r : list cell) (seen : list (list cell)) :
  existsb (row_eqb r) seen = true <-> In r seen.
Proof.
  rewrite existsb_exists. split.
  - intros [x [Hx E]]. apply row_eqb_eq in E. subst. exact Hx.
  - intros H. exists r. split; [exact H|]. apply row_eqb_eq. reflexivity.
Qed.

Lemma length_duplicated_from (seen rs : list (list cell)) :
  List.length (duplicated_from seen rs) = List.length rs.
Proof.
  revert seen. induction rs as [|r rs IH]; intros seen; simpl; auto.
Qed.

(** A row is marked exactly when an equal row was seen before it. *)
Lemma duplicated_from_nth (seen rs : list (list cell)) (i : nat) :
  i < List.length rs ->
  (nth i (duplicated_from seen rs) false = true
   <-> In (nth i rs []) seen
       \/ exists j, j < i /\ nth j rs [] = nth i rs []).
Proof.
  revert seen i. induction rs as [|r rs IH]; intros seen i Hi; simpl in Hi;
    [lia|].
  destruct i as [|i]; simpl.
  - rewrite existsb_row_eqb. split; [auto|].
    intros [H|[j [Hj _]]]; [exact H|lia].
  - rewrite IH by lia. simpl. split.
    + intros [[E|H]|[j [Hj E]]].
      * right. exists 0. split; [lia|exact E].
      * left. exact H.
      * right. exists (S j). split; [lia|exact E].
    + intros [H|[j [Hj E]]].
      * left. right. exact H.
      * destruct j as [|j].
        -- left. left. exact E.
        -- right. exists j. split; [lia|exact E].
Qed.

(** What is kept: each row that occurs, once, unless it was seen before. *)
Lemma kept_rows_from (seen rs : list (list cell)) :
  let out := compress (List.map negb (duplicated_from seen rs)) rs in
  NoDup out /\ forall r, In r out <-> In r rs /\ ~ In r seen.
Proof.
  revert seen. induction rs as [|r rs IH]; intros seen; simpl.
  - split; [constructor|]. tauto.
  - destruct (IH (r :: seen)) as [Hnd Hin].
    destruct (existsb (row_eqb r) seen) eqn:E; simpl.
    + apply existsb_row_eqb in E. split; [exact Hnd|].
      intros x. rewrite Hin. simpl. split.
      * intros [Hx Hn]. split; [right; exact Hx|tauto].
      * intros [[->|Hx] Hn]; [tauto|]. split; [exact Hx|].
        intros [->|H]; tauto.
    + assert (Hr : ~ In r seen).
      { intros H. apply existsb_row_eqb in H. congruence. }
      split.
      * constructor; [|exact Hnd]. rewrite Hin. simpl. tauto.
      * intros x. simpl. rewrite Hin. simpl. split.
        -- intros [->|[Hx Hn]]; [tauto|]. split; [tauto|tauto].
        -- intros [[->|Hx] Hn]; [tauto|].
           destruct (row_eqb r x) eqn:Ex.
           ++ apply row_eqb_eq in Ex. tauto.
           ++ right. split; [exact Hx|]. intros [->|H]; [|tauto].
              assert (row_eqb x x = true) by (apply row_eqb_eq; reflexivity).
              congruence.
Qed.

(** C3: on a well-formed table, [remove_duplicates] removes exactly the
    rows that equal, cell by cell, a row before them; it keeps the first
    occurrence of every distinct row and the order of the rows kept, and
    its message gives the row count before minus the row count after.  On
    the rows (1,a), (1,a), (2,b) it returns (1,a), (2,b) and reports 1. *)
Theorem remove_duplicates_spec (df : DataFrame) :
  wf df ->
  let out := fst (remove_duplicates df) in
  let msg := snd (remove_duplicates df) in
  (exists mask,
      List.length mask = nrows df
      /\ (forall i, i < nrows df ->
            (nth i mask true = false
             <-> exists j, j < i /\ row_at df j = row_at df i))
      /\ rows out = compress mask (rows df)
      /\ index out = compress mask (index df))
  /\ NoDup (rows out)
  /\ (forall r, In r (rows out) <-> In r (rows df))
  /\ columns out = columns df
  /\ (exists removed,
        removed + nrows out = nrows df
        /\ msg = ("Removed " ++ str_of_int (Z.of_nat removed)
                  ++ " duplicate rows")%string)
  /\ rows (fst (remove_duplicates dup_rows))
     = [[CNum (Q2Qc 1); CText "a"]; [CNum (Q2Qc 2); CText "b"]]
  /\ snd (remove_duplicates dup_rows) = "Removed 1 duplicate rows".
Proof.
  intros Hwf out msg.
  assert (Hrows : rows out
                  = compress (List.map negb (duplicated df)) (rows df)).
  { apply rows_take_rows. exact Hwf. }
  split.
  { exists (List.map negb (duplicated df)).
    split.
    { unfold duplicated.
      rewrite length_map, length_duplicated_from. apply length_rows. }
    split; [|split; [exact Hrows|reflexivity]].
    intros i Hi.
    rewrite nth_map_in with (d' := false)
      by (unfold duplicated; rewrite length_duplicated_from, length_rows;
          exact Hi).
    rewrite negb_false_iff. unfold duplicated.
    rewrite duplicated_from_nth by (rewrite length_rows; exact Hi).
    simpl. split.
    - intros [[]|[j [Hj E]]]. exists j. split; [exact Hj|].
      rewrite !nth_rows in E by lia. exact E.
    - intros [j [Hj E]]. right. exists j. split; [exact Hj|].
      rewrite !nth_rows by lia. exact E. }
  destruct (kept_rows_from [] (rows df)) as [Hnd Hin].
  fold (duplicated df) in Hnd, Hin. rewrite <- Hrows in Hnd, Hin.
  split; [exact Hnd|].
  split.
  { intros r. rewrite Hin. simpl. tauto. }
  split; [apply columns_take_rows|].
  split.
  { exists (nrows df - nrows out).
    pose proof (nrows_take_rows (List.map negb (duplicated df)) df) as Hle.
    fold (drop_duplicates df) in Hle.
    change (nrows out <= nrows df) in Hle.
    split; [lia|].
    unfold msg, remove_duplicates. cbn [snd]. fold out.
    rewrite Nat2Z.inj_sub by exact Hle. reflexivity. }
  split; reflexivity.
Qed.

Lemma remove_duplicates_spec_witness :
  wf dup_rows
  /\ NoDup (rows (fst (remove_duplicates dup_rows)))
  /\ columns (fst (remove_duplicates dup_rows)) = ["id"; "tag"].
Proof.
  assert (W : wf dup_rows) by (repeat constructor).
  split; [exact W|].
  pose proof (remove_duplicates_spec dup_rows W) as H.
  cbv zeta in H. destruct H as [_ [Hnd [_ [Hc _]]]].
  split; [exact Hnd|exact Hc].
Defined.

(* ------------------------------------------------------------------ *)
(** ** Missing cells *)

Lemma is_na_true (x : cell) : is_na x = true <-> x = NA.
Proof. destruct x; simpl; split; congruence. Qed.

Lemma existsb_is_na (r : list cell) : existsb is_na r = true <-> In NA r.
Proof.
  rewrite existsb_exists. split.
  - intros [x [Hx E]]. apply is_na_true in E. subst. exact Hx.
  - intros H. exists NA. split; [exact H|reflexivity].
Qed.

Lemma filter_none {A : Type} (p : A -> bool) (l : list A) :
  (forall x, In x l -> p x = false) -> List.filter p l = [].
Proof.
  induction l as [|x l IH]; simpl; intros H; [reflexivity|].
  rewrite (H x) by auto. apply IH. auto.
Qed.

Lemma count_missing_zero (df : DataFrame) :
  (forall c x, In c (cols df) -> In x (cells (snd c)) -> x <> NA) ->
  count_missing df = 0.
Proof.
  unfold count_missing. generalize (cols df) as l.
  induction l as [|c l IH]; simpl; intros H; [reflexivity|].
  rewrite filter_none.
  - simpl. apply IH. intros c' x Hc. apply H. auto.
  - intros x Hx. destruct (is_na x) eqn:E; [|reflexivity].
    apply is_na_true in E. exfalso. apply (H c x); auto.
Qed.

Lemma handle_missing_values_remove_rows (df : DataFrame) :
  handle_missing_values df RemoveRows = dropna df.
Proof. reflexivity. Qed.

Lemma dropna_no_missing (df : DataFrame) :
  wf df -> count_missing (dropna df) = 0.
Proof.
  intros Hwf. apply count_missing_zero. intros c x Hc Hx ->.
  unfold dropna, take_rows in Hc. simpl in Hc.
  apply in_map_iff in Hc. destruct Hc as [c0 [<- Hc0]]. simpl in Hx.
  rewrite cells_take_series in Hx.
  apply in_compress in Hx. destruct Hx as [k [Hm Hk]].
  assert (Hlen : k < nrows df).
  { unfold wf in Hwf. rewrite Forall_forall in Hwf.
    rewrite <- (Hwf c0 Hc0). unfold series_len.
    apply nth_error_Some. congruence. }
  rewrite nth_error_map in Hm.
  destruct (nth_error (rows df) k) as [r|] eqn:Hr; [|discriminate].
  simpl in Hm. injection Hm as Hm. apply negb_true_iff in Hm.
  apply nth_error_nth with (d := []) in Hr.
  rewrite nth_rows in Hr by exact Hlen. subst r.
  assert (In NA (row_at df k)) as Hin.
  { unfold row_at. apply in_map_iff. exists c0. split; [|exact Hc0].
    apply nth_error_nth. exact Hk. }
  apply existsb_is_na in Hin. congruence.
Qed.

(** C4: on a well-formed table the RemoveRows policy drops exactly the rows
    that hold a missing cell in some column, whatever the column's type;
    the result has no missing cell, its rows are rows of the input, in
    their order and unmodified, the columns are the same and there are no
    more rows than before. *)
Theorem remove_rows_spec (df : DataFrame) :
  wf df ->
  let out := handle_missing_values df RemoveRows in
  (exists mask,
      List.length mask = nrows df
      /\ (forall i, i < nrows df ->
            (nth i mask true = false <-> In NA (row_at df i)))
      /\ rows out = compress mask (rows df)
      /\ index out = compress mask (index df))
  /\ count_missing out = 0
  /\ (forall r, In r (rows out) -> In r (rows df))
  /\ columns out = columns df
  /\ ncols out = ncols df
  /\ nrows out <= nrows df.
Proof.
  intros Hwf out. unfold out. rewrite handle_missing_values_remove_rows.
  set (mask := List.map (fun r => negb (existsb is_na r)) (rows df)).
  assert (Hrows : rows (dropna df) = compress mask (rows df)).
  { apply rows_take_rows. exact Hwf. }
  split.
  { exists mask. split.
    { unfold mask. rewrite length_map. apply length_rows. }
    split; [|split; [exact Hrows|reflexivity]].
    intros i Hi. unfold mask.
    rewrite nth_map_in with (d' := []) by (rewrite length_rows; exact Hi).
    rewrite negb_false_iff, nth_rows by exact Hi. apply existsb_is_na. }
  split; [apply dropna_no_missing; exact Hwf|].
  split.
  { intros r Hr. rewrite Hrows in Hr. apply in_compress in Hr.
    destruct Hr as [k [_ Hk]]. eapply nth_error_In. exact Hk. }
  split; [apply columns_take_rows|].
  split; [unfold ncols, dropna; simpl; apply length_map|].
  apply nrows_take_rows.
Qed.

Lemma remove_rows_spec_witness :
  wf with_gaps
  /\ rows (handle_missing_values with_gaps RemoveRows)
     = [[CNum (Q2Qc 1); CText "a"; CBool true]]
  /\ count_missing (handle_missing_values with_gaps RemoveRows) = 0.
Proof.
  assert (W : wf with_gaps) by (repeat constructor).
  split; [exact W|]. split; [reflexivity|].
  pose proof (remove_rows_spec with_gaps W) as H.
  cbv zeta in H. destruct H as [_ [H0 _]]. exact H0.
Defined.

Lemma handle_missing_values_fill_zero (df : DataFrame) :
  handle_missing_values df FillZero = fillna_zero df.
Proof. reflexivity. Qed.

Lemma cells_fillna_zero (s : Series) :
  cells (series_fillna (Some (Q2Qc 0)) s)
  = List.map zero_if_missing (cells s).
Proof.
  destruct s as [xs|xs|xs]; simpl; rewrite !map_map; apply map_ext.
  - intros [q|]; reflexivity.
  - reflexivity.
  - intros [[s|q]|]; reflexivity.
Qed.

Lemma zero_if_missing_not_na (x : cell) : zero_if_missing x <> NA.
Proof. destruct x; discriminate. Qed.

(** C5: the FillZero policy puts 0 in every missing cell of every column,
    whatever its type, and leaves every other cell as it is; the result has
    no missing cell and the same index, row count, column count and column
    names. *)
Theorem fill_zero_spec (df : DataFrame) :
  let out := handle_missing_values df FillZero in
  List.map (fun c => cells (snd c)) (cols out)
  = List.map (fun c => List.map zero_if_missing (cells (snd c))) (cols df)
  /\ count_missing out = 0
  /\ index out = index df
  /\ nrows out = nrows df
  /\ ncols out = ncols df
  /\ columns out = columns df.
Proof.
  intros out. unfold out. rewrite handle_missing_values_fill_zero.
  split.
  { unfold fillna_zero. simpl. rewrite map_map. apply map_ext.
    intros c. simpl. apply cells_fillna_zero. }
  split.
  { apply count_missing_zero. intros c x Hc Hx ->.
    unfold fillna_zero in Hc. simpl in Hc. apply in_map_iff in Hc.
    destruct Hc as [c0 [<- _]]. simpl in Hx.
    rewrite cells_fillna_zero in Hx. apply in_map_iff in Hx.
    destruct Hx as [y [Hy _]]. exact (zero_if_missing_not_na y Hy). }
  split; [reflexivity|]. split; [reflexivity|].
  split; [unfold ncols, fillna_zero; simpl; apply length_map|].
  unfold columns, fillna_zero. simpl. rewrite map_map. reflexivity.
Qed.

(* ------------------------------------------------------------------ *)
(** ** The loop over the numeric columns *)

Lemma fst_inj_of_NoDup {A B : Type} (l : list (A * B)) (a b : A * B) :
  NoDup (List.map fst l) -> In a l -> In b l -> fst a = fst b -> a = b.
Proof.
  induction l as [|x l IH]; simpl; intros Hnd Ha Hb E; [contradiction|].
  inversion Hnd as [|? ? Hx Hl]; subst.
  destruct Ha as [->|Ha], Hb as [->|Hb]; auto.
  - exfalso. apply Hx. rewrite E. apply in_map. exact Hb.
  - exfalso. apply Hx. rewrite <- E. apply in_map. exact Ha.
Qed.

Lemma NoDup_map_filter {A B : Type} (f : A -> B) (p : A -> bool)
  (l : list A) :
  NoDup (List.map f l) -> NoDup (List.map f (List.filter p l)).
Proof.
  induction l as [|x l IH]; simpl; intros H; [constructor|].
  inversion H as [|? ? Hx Hl]; subst.
  destruct (p x); simpl; auto.
  constructor; auto. intros Hin. apply Hx.
  apply in_map_iff in Hin. destruct Hin as [y [E Hy]].
  apply filter_In in Hy. rewrite <- E. apply in_map. tauto.
Qed.

Lemma cols_fill_step (stat : Series -> option Qc) (d : DataFrame)
  (col : string) :
  NoDup (columns d) ->
  cols (fill_step stat d col)
  = List.map (fun c => if String.eqb (fst c) col
                       then (fst c, fill_series stat (snd c)) else c)
      (cols d).
Proof.
  intros Hnd. unfold fill_step, getitem.
  destruct (List.find (fun c => String.eqb (fst c) col) (cols d))
    as [c0|] eqn:Hf; simpl.
  - apply find_some in Hf. destruct Hf as [Hin0 E0].
    apply String.eqb_eq in E0.
    apply map_ext_in. intros c Hc.
    destruct (String.eqb (fst c) col) eqn:E; [|reflexivity].
    apply String.eqb_eq in E.
    assert (c = c0) as ->.
    { apply (fst_inj_of_NoDup (cols d)); auto. congruence. }
    reflexivity.
  - rewrite <- (map_id (cols d)) at 1. apply map_ext_in. intros c Hc.
    rewrite (find_none _ _ Hf c Hc). reflexivity.
Qed.

Lemma index_fill_step (stat : Series -> option Qc) (d : DataFrame)
  (col : string) :
  index (fill_step stat d col) = index d.
Proof. unfold fill_step. destruct (getitem d col); reflexivity. Qed.

Lemma columns_fill_step (stat : Series -> option Qc) (d : DataFrame)
  (col : string) :
  NoDup (columns d) -> columns (fill_step stat d col) = columns d.
Proof.
  intros Hnd. unfold columns. rewrite cols_fill_step by exact Hnd.
  rewrite map_map. apply map_ext. intros c.
  destruct (String.eqb (fst c) col); reflexivity.
Qed.

Lemma fold_fill_step (stat : Series -> option Qc) (L : list string)
  (d : DataFrame) :
  NoDup (columns d) -> NoDup L ->
  cols (fold_left (fill_step stat) L d)
  = List.map (fun c => if existsb (String.eqb (fst c)) L
                       then (fst c, fill_series stat (snd c)) else c)
      (cols d)
  /\ index (fold_left (fill_step stat) L d) = index d.
Proof.
  revert d. induction L as [|col L IH]; intros d Hd HL; simpl.
  - split; [|reflexivity]. symmetry. apply map_id.
  - inversion HL as [|? ? Hcol HL']; subst.
    destruct (IH (fill_step stat d col)) as [Hc Hi].
    { rewrite columns_fill_step by exact Hd. exact Hd. }
    { exact HL'. }
    split; [|rewrite Hi; apply index_fill_step].
    rewrite Hc, cols_fill_step by exact Hd. rewrite map_map.
    apply map_ext. intros c.
    destruct (String.eqb (fst c) col) eqn:E; simpl; [|reflexivity].
    apply String.eqb_eq in E.
    destruct (existsb (String.eqb (fst c)) L) eqn:Ex; [|reflexivity].
    exfalso. apply Hcol. apply existsb_exists in Ex.
    destruct Ex as [x [Hx Ex]]. apply String.eqb_eq in Ex. congruence.
Qed.

Lemma fill_numeric_unfold (stat : Series -> option Qc) (df : DataFrame) :
  fill_numeric stat df = fold_left (fill_step stat) (numeric_columns df) df.
Proof. reflexivity. Qed.

(** With distinct labels the loop fills the numeric columns, each from its
    own values, and leaves the rest of the frame alone. *)
Lemma cols_fill_numeric (stat : Series -> option Qc) (df : DataFrame) :
  NoDup (columns df) ->
  cols (fill_numeric stat df)
  = List.map (fun c => if is_number_dtype (snd c)
                       then (fst c, fill_series stat (snd c)) else c)
      (cols df)
  /\ index (fill_numeric stat df) = index df.
Proof.
  intros Hnd. rewrite fill_numeric_unfold.
  destruct (fold_fill_step stat (numeric_columns df) df Hnd) as [Hc Hi].
  { unfold numeric_columns. apply NoDup_map_filter. exact Hnd. }
  split; [|exact Hi]. rewrite Hc. apply map_ext_in. intros c Hin.
  destruct (is_number_dtype (snd c)) eqn:En.
  - assert (existsb (String.eqb (fst c)) (numeric_columns df) = true) as ->.
    { apply existsb_exists. exists (fst c). split; [|apply String.eqb_refl].
      unfold numeric_columns. apply in_map. apply filter_In. auto. }
    reflexivity.
  - destruct (existsb (String.eqb (fst c)) (numeric_columns df)) eqn:Ex;
      [|reflexivity].
    exfalso. apply existsb_exists in Ex. destruct Ex as [x [Hx Ex]].
    apply String.eqb_eq in Ex. subst x. unfold numeric_columns in Hx.
    apply in_map_iff in Hx. destruct Hx as [c' [E Hc']].
    apply filter_In in Hc'. destruct Hc' as [Hin' En'].
    assert (c' = c) by (apply (fst_inj_of_NoDup (cols df)); auto).
    subst c'. congruence.
Qed.

Lemma handle_missing_values_fill_mean (df : DataFrame) :
  handle_missing_values df FillMean = fill_numeric series_mean df.
Proof. reflexivity. Qed.

Lemma handle_missing_values_fill_median (df : DataFrame) :
  handle_missing_values df FillMedian = fill_numeric series_median df.
Proof. reflexivity. Qed.

Lemma fillna_nan (xs : list (option Qc)) :
  List.map (fun x => match x with None => None | Some _ => x end) xs = xs.
Proof.
  rewrite <- (map_id xs) at 2. apply map_ext. intros [q|]; reflexivity.
Qed.

Lemma nonmissing_all_missing (xs : list (option Qc)) :
  Forall (fun x => x = None) xs -> nonmissing xs = [].
Proof.
  induction 1 as [|x xs Hx _ IH]; simpl; [reflexivity|].
  subst x. exact IH.
Qed.




(** C8: on a table with distinct column names, the FillMean and FillMedian
    policies leave the index, the column names and every column that is not
    numeric as they are, missing cells included. *)
Theorem fill_keeps_other_columns (df : DataFrame) (method : string) :
  NoDup (columns df) ->
  method = FillMean \/ method = FillMedian ->
  let out := handle_missing_values df method in
  columns out = columns df
  /\ index out = index df
  /\ ncols out = ncols df
  /\ (forall i c, nth_error (cols df) i = Some c ->
        is_number_dtype (snd c) = false ->
        nth_error (cols out) i = Some c).
Proof.
  intros Hnd Hm out.
  assert (exists stat, out = fill_numeric stat df) as [stat ->].
  { destruct Hm as [-> | ->].
    - exists series_mean. apply handle_missing_values_fill_mean.
    - exists series_median. apply handle_missing_values_fill_median. }
  destruct (cols_fill_numeric stat df Hnd) as [Hc Hi].
  split.
  { unfold columns. rewrite Hc, map_map. apply map_ext. intros c.
    destruct (is_number_dtype (snd c)); reflexivity. }
  split; [exact Hi|].
  split; [unfold ncols; rewrite Hc; apply length_map|].
  intros i c Hn Hd. rewrite Hc, nth_error_map, Hn. simpl.
  rewrite Hd. reflexivity.
Qed.

Lemma fill_keeps_other_columns_witness :
  NoDup (columns one_gap_three)
  /\ nth_error (cols (handle_missing_values one_gap_three FillMedian)) 1
     = Some ("note", SObj [Some (OText "a"); None; Some (OText "c")]).
Proof.
  assert (N : NoDup (columns one_gap_three)).
  { repeat constructor; simpl; intuition discriminate. }
  split; [exact N|].
  pose proof (fill_keeps_other_columns one_gap_three FillMedian N
                (or_intror eq_refl)) as H.
  cbv zeta in H. destruct H as [_ [_ [_ H]]].
  apply (H 1); reflexivity.
Defined.



(** C10: on a table with distinct column names, a numeric column whose cells
    are all missing has [NaN] for mean and for median, and the FillMean and
    FillMedian policies leave it as it is: every cell stays missing. *)
Theorem fill_all_missing_column (df : DataFrame) (i : nat) (label : string)
  (xs : list (option Qc)) :
  NoDup (columns df) ->
  nth_error (cols df) i = Some (label, SNum xs) ->
  Forall (fun x => x = None) xs ->
  series_mean (SNum xs) = None
  /\ series_median (SNum xs) = None
  /\ nth_error (cols (handle_missing_values df FillMean)) i
     = Some (label, SNum xs)
  /\ nth_error (cols (handle_missing_values df FillMedian)) i
     = Some (label, SNum xs).
Proof.
  intros Hnd Hn Hall.
  pose proof (nonmissing_all_missing xs Hall) as He.
  assert (Hmean : series_mean (SNum xs) = None)
    by (simpl; rewrite He; reflexivity).
  assert (Hmed : series_median (SNum xs) = None)
    by (simpl; rewrite He; reflexivity).
  split; [exact Hmean|]. split; [exact Hmed|].
  rewrite handle_missing_values_fill_mean, handle_missing_values_fill_median.
  destruct (cols_fill_numeric series_mean df Hnd) as [Hc1 _].
  destruct (cols_fill_numeric series_median df Hnd) as [Hc2 _].
  rewrite Hc1, Hc2, !nth_error_map, Hn.
  cbn [option_map snd fst is_number_dtype]. unfold fill_series.
  rewrite Hmean, Hmed. cbn [series_fillna].
  rewrite fillna_nan. split; reflexivity.
Qed.

Lemma fill_all_missing_column_witness :
  NoDup (columns all_gaps)
  /\ Forall (fun x : option Qc => x = None) [None; None]
  /\ nth_error (cols (handle_missing_values all_gaps FillMean)) 0
     = Some ("x", SNum [None; None])
  /\ nth_error (cols (handle_missing_values all_gaps FillMedian)) 0
     = Some ("x", SNum [None; None]).
Proof.
  assert (N : NoDup (columns all_gaps)).
  { repeat constructor; simpl; intuition discriminate. }
  assert (A : Forall (fun x : option Qc => x = None) [None; None])
    by (repeat constructor).
  split; [exact N|]. split; [exact A|].
  pose proof (fill_all_missing_column all_gaps 0 "x" [None; None] N
                eq_refl A) as H.
  destruct H as [_ [_ H]]. exact H.
Defined.

(* ------------------------------------------------------------------ *)
(** ** The error boundary *)

Section Boundary.

Variable read_csv read_excel : string -> DataFrame.
Variable to_csv to_excel : DataFrame -> string.
Variable fault : stage -> option string.









(** When the file does not parse, the error message is all the page gets. *)
Lemma unreadable_file_shows_one_error (w : Widgets) :
  script read_csv read_excel to_csv to_excel unreadable (Some report_csv) w
  = [Called Ingest;
     Shown (StError "An error occurred: No columns to parse from file")].
Proof. reflexivity. Qed.

End Boundary.

(* ================================================================== *)
(** * Further properties of the transforms and of the script *)

(* ------------------------------------------------------------------ *)
(** ** Masks that keep every row *)

Lemma compress_all_true {A : Type} (mask : list bool) (xs : list A) :
  Forall (fun b => b = true) mask -> List.length mask = List.length xs ->
  compress mask xs = xs.
Proof.
  revert xs. induction mask as [|b m IH]; intros [|x xs] Hall Hlen;
    simpl in *; try discriminate; [reflexivity|].
  inversion Hall as [|? ? Hb Hm]; subst. rewrite IH; auto.
Qed.

Lemma length_series_data (s : Series) :
  series_len s = match s with
                 | SNum xs => List.length xs
                 | SBool xs => List.length xs
                 | SObj xs => List.length xs
                 end.
Proof. destruct s; unfold series_len; simpl; apply length_map. Qed.

Lemma take_series_all_true (mask : list bool) (s : Series) :
  Forall (fun b => b = true) mask -> List.length mask = series_len s ->
  take_series mask s = s.
Proof.
  intros Hall Hlen. rewrite length_series_data in Hlen.
  destruct s; simpl; rewrite compress_all_true; auto.
Qed.

Lemma take_rows_all_true (mask : list bool) (df : DataFrame) :
  wf df -> Forall (fun b => b = true) mask ->
  List.length mask = nrows df ->
  take_rows mask df = df.
Proof.
  intros Hwf Hall Hlen. destruct df as [idx cs]. unfold take_rows. simpl.
  unfold nrows in Hlen. simpl in Hlen.
  rewrite compress_all_true by assumption. f_equal.
  rewrite <- (map_id cs) at 2. apply map_ext_in. intros [n s] Hc. simpl.
  unfold wf in Hwf. rewrite Forall_forall in Hwf.
  specialize (Hwf _ Hc). simpl in Hwf. unfold nrows in Hwf. simpl in Hwf.
  rewrite take_series_all_true; [reflexivity|exact Hall|congruence].
Qed.

Lemma duplicated_from_distinct (seen rs : list (list cell)) :
  NoDup rs -> (forall r, In r rs -> ~ In r seen) ->
  Forall (fun b => b = true) (List.map negb (duplicated_from seen rs)).
Proof.
  revert seen. induction rs as [|r rs IH]; intros seen Hnd Hdis; simpl;
    [constructor|].
  inversion Hnd as [|? ? Hr Hrs]; subst. constructor.
  - apply negb_true_iff. destruct (existsb (row_eqb r) seen) eqn:E;
      [|reflexivity].
    apply existsb_row_eqb in E. exfalso. apply (Hdis r); simpl; auto.
  - apply IH; [exact Hrs|]. intros x Hx [->|Hin]; [contradiction|].
    apply (Hdis x); simpl; auto.
Qed.

Lemma drop_duplicates_distinct (df : DataFrame) :
  wf df -> NoDup (rows df) -> drop_duplicates df = df.
Proof.
  intros Hwf Hnd. unfold drop_duplicates. apply take_rows_all_true.
  - exact Hwf.
  - unfold duplicated. apply duplicated_from_distinct; [exact Hnd|].
    intros r _ [].
  - unfold duplicated.
    rewrite length_map, length_duplicated_from. apply length_rows.
Qed.

Lemma rows_drop_duplicates_distinct (df : DataFrame) :
  wf df -> NoDup (rows (drop_duplicates df)).
Proof.
  intros Hwf. unfold drop_duplicates. rewrite rows_take_rows by exact Hwf.
  exact (proj1 (kept_rows_from [] (rows df))).
Qed.

Lemma remove_duplicates_message_zero (df : DataFrame) :
  drop_duplicates df = df ->
  remove_duplicates df = (df, "Removed 0 duplicate rows").
Proof.
  intros E. unfold remove_duplicates. rewrite E, Z.sub_diag. reflexivity.
Qed.



(** X2: removing duplicates a second time removes nothing: on a well-formed
    table the second call returns the frame of the first and reports 0. *)
Theorem remove_duplicates_twice (df : DataFrame) :
  wf df ->
  remove_duplicates (fst (remove_duplicates df))
  = (fst (remove_duplicates df), "Removed 0 duplicate rows").
Proof.
  intros Hwf. cbn [remove_duplicates fst].
  apply remove_duplicates_message_zero. apply drop_duplicates_distinct.
  - apply wf_take_rows. exact Hwf.
  - apply rows_drop_duplicates_distinct. exact Hwf.
Qed.

Lemma remove_duplicates_twice_witness :
  wf dup_rows
  /\ snd (remove_duplicates dup_rows) = "Removed 1 duplicate rows"
  /\ remove_duplicates (fst (remove_duplicates dup_rows))
     = (fst (remove_duplicates dup_rows), "Removed 0 duplicate rows").
Proof.
  assert (W : wf dup_rows) by (repeat constructor).
  split; [exact W|]. split; [reflexivity|].
  exact (remove_duplicates_twice dup_rows W).
Defined.

(* ------------------------------------------------------------------ *)
(** ** What every policy keeps *)

Lemma series_len_fillna (v : option Qc) (s : Series) :
  series_len (series_fillna v s) = series_len s.
Proof.
  rewrite !length_series_data. destruct s; simpl; try reflexivity;
    apply length_map.
Qed.

Lemma columns_setitem (d : DataFrame) (col : string) (s : Series) :
  columns (setitem d col s) = columns d.
Proof.
  unfold columns, setitem. simpl. rewrite map_map. apply map_ext.
  intros c. destruct (String.eqb (fst c) col); reflexivity.
Qed.

Lemma columns_fill_step_any (stat : Series -> option Qc) (d : DataFrame)
  (col : string) :
  columns (fill_step stat d col) = columns d.
Proof.
  unfold fill_step. destruct (getitem d col); [apply columns_setitem|].
  reflexivity.
Qed.

Lemma wf_fill_step (stat : Series -> option Qc) (d : DataFrame)
  (col : string) :
  wf d -> wf (fill_step stat d col).
Proof.
  intros Hwf. unfold fill_step, getitem.
  destruct (List.find (fun c => String.eqb (fst c) col) (cols d))
    as [c0|] eqn:Hf; simpl; [|exact Hwf].
  apply find_some in Hf. destruct Hf as [Hin _].
  unfold wf in *. rewrite Forall_forall in Hwf. unfold setitem, nrows.
  simpl. apply Forall_map. apply Forall_forall. intros c Hc.
  destruct (String.eqb (fst c) col); simpl.
  - rewrite series_len_fillna. apply (Hwf c0 Hin).
  - apply (Hwf c Hc).
Qed.

Lemma fold_fill_step_keeps (stat : Series -> option Qc) (L : list string)
  (d : DataFrame) :
  columns (fold_left (fill_step stat) L d) = columns d
  /\ index (fold_left (fill_step stat) L d) = index d
  /\ (wf d -> wf (fold_left (fill_step stat) L d)).
Proof.
  revert d. induction L as [|col L IH]; intros d; simpl.
  - auto.
  - destruct (IH (fill_step stat d col)) as [Hc [Hi Hw]].
    rewrite Hc, Hi, columns_fill_step_any, index_fill_step.
    split; [reflexivity|]. split; [reflexivity|].
    intros Hwf. apply Hw, wf_fill_step, Hwf.
Qed.

Lemma wf_clean_column_names (df : DataFrame) :
  wf df -> wf (clean_column_names df).
Proof.
  unfold wf. rewrite cols_clean_column_names. intros H.
  apply Forall_map. exact H.
Qed.


(** The five ways out of [handle_missing_values]. *)
Lemma handle_missing_values_cases (df : DataFrame) (method : string) :
  (method = "Remove rows" /\ handle_missing_values df method = dropna df)
  \/ (method = "Fill with mean"
      /\ handle_missing_values df method = fill_numeric series_mean df)
  \/ (method = "Fill with median"
      /\ handle_missing_values df method = fill_numeric series_median df)
  \/ (method = "Fill with zero"
      /\ handle_missing_values df method = fillna_zero df)
  \/ (method <> "Remove rows" /\ method <> "Fill with mean"
      /\ method <> "Fill with median" /\ method <> "Fill with zero"
      /\ handle_missing_values df method = df).
Proof.
  unfold handle_missing_values.
  destruct (String.eqb_spec method "Remove rows") as [->|H1]; [auto|].
  destruct (String.eqb_spec method "Fill with mean") as [->|H2];
    [auto|].
  destruct (String.eqb_spec method "Fill with median") as [->|H3];
    [auto|].
  destruct (String.eqb_spec method "Fill with zero") as [->|H4];
    [auto 6|].
  auto 10.
Qed.





(* ------------------------------------------------------------------ *)
(** ** The median *)











Lemma median_one_two_four :
  median_of [Q2Qc 1; Q2Qc 2; Q2Qc 4] = Some (Q2Qc 2).
Proof. reflexivity. Qed.



(* ------------------------------------------------------------------ *)
(** ** Applying a policy twice *)

Lemma frame_eq (a b : DataFrame) :
  index a = index b -> cols a = cols b -> a = b.
Proof. destruct a, b. simpl. intros -> ->. reflexivity. Qed.

Lemma series_fillna_nan (s : Series) : series_fillna None s = s.
Proof.
  destruct s as [xs|xs|xs]; simpl; [|reflexivity|]; f_equal;
    rewrite <- (map_id xs) at 2; apply map_ext; intros [x|]; reflexivity.
Qed.

Lemma series_fillna_filled (v : Qc) (w : option Qc) (s : Series) :
  series_fillna w (series_fillna (Some v) s) = series_fillna (Some v) s.
Proof.
  destruct s as [xs|xs|xs]; simpl; [|reflexivity|]; f_equal;
    rewrite map_map; apply map_ext; intros [x|]; reflexivity.
Qed.

Lemma fill_series_twice (stat : Series -> option Qc) (s : Series) :
  fill_series stat (fill_series stat s) = fill_series stat s.
Proof.
  unfold fill_series. destruct (stat s) as [v|] eqn:E.
  - apply series_fillna_filled.
  - rewrite !series_fillna_nan, E. apply series_fillna_nan.
Qed.

Lemma is_number_dtype_fillna (v : option Qc) (s : Series) :
  is_number_dtype (series_fillna v s) = is_number_dtype s.
Proof. destruct s; reflexivity. Qed.

Lemma fill_numeric_twice (stat : Series -> option Qc) (df : DataFrame) :
  NoDup (columns df) ->
  fill_numeric stat (fill_numeric stat df) = fill_numeric stat df.
Proof.
  intros Hnd.
  destruct (cols_fill_numeric stat df Hnd) as [Hc Hi].
  assert (Hnd' : NoDup (columns (fill_numeric stat df))).
  { rewrite fill_numeric_unfold.
    rewrite (proj1 (fold_fill_step_keeps stat (numeric_columns df) df)).
    exact Hnd. }
  destruct (cols_fill_numeric stat (fill_numeric stat df) Hnd') as [Hc2 Hi2].
  apply frame_eq; [exact Hi2|].
  rewrite Hc2, Hc, map_map. apply map_ext. intros c.
  cbv beta. destruct (is_number_dtype (snd c)) eqn:E; cbn [fst snd].
  - assert (is_number_dtype (fill_series stat (snd c)) = true) as ->
      by (unfold fill_series; rewrite is_number_dtype_fillna; exact E).
    rewrite fill_series_twice. reflexivity.
  - rewrite E. reflexivity.
Qed.

Lemma rows_dropna_full (df : DataFrame) :
  wf df ->
  Forall (fun b => b = true)
    (List.map (fun r => negb (existsb is_na r)) (rows (dropna df))).
Proof.
  intros Hwf. apply Forall_map, Forall_forall. intros r Hr.
  unfold dropna in Hr. rewrite rows_take_rows in Hr by exact Hwf.
  apply in_compress in Hr. destruct Hr as [k [Hm Hk]].
  rewrite nth_error_map, Hk in Hm. simpl in Hm. congruence.
Qed.

Lemma dropna_twice (df : DataFrame) :
  wf df -> dropna (dropna df) = dropna df.
Proof.
  intros Hwf. unfold dropna at 1. apply take_rows_all_true.
  - unfold dropna. apply wf_take_rows, Hwf.
  - apply rows_dropna_full, Hwf.
  - rewrite length_map. apply length_rows.
Qed.

Lemma fillna_zero_twice (df : DataFrame) :
  fillna_zero (fillna_zero df) = fillna_zero df.
Proof.
  apply frame_eq; [reflexivity|]. unfold fillna_zero. simpl.
  rewrite map_map. apply map_ext. intros c. simpl.
  rewrite series_fillna_filled. reflexivity.
Qed.

(** X6: every policy is idempotent: on a well-formed table with distinct
    column names, and whatever the method string, handling the missing
    values of the result once more with the same method changes nothing. *)
Theorem handle_missing_values_twice (df : DataFrame) (method : string) :
  wf df -> NoDup (columns df) ->
  handle_missing_values (handle_missing_values df method) method
  = handle_missing_values df method.
Proof.
  intros Hwf Hnd.
  destruct (handle_missing_values_cases df method)
    as [[-> E]|[[-> E]|[[-> E]|[[-> E]|[_ [_ [_ [_ E]]]]]]]].
  - rewrite E. change (dropna (dropna df) = dropna df).
    apply dropna_twice, Hwf.
  - rewrite E.
    change (fill_numeric series_mean (fill_numeric series_mean df)
            = fill_numeric series_mean df).
    apply fill_numeric_twice, Hnd.
  - rewrite E.
    change (fill_numeric series_median (fill_numeric series_median df)
            = fill_numeric series_median df).
    apply fill_numeric_twice, Hnd.
  - rewrite E. change (fillna_zero (fillna_zero df) = fillna_zero df).
    apply fillna_zero_twice.
  - rewrite E. exact E.
Qed.

Lemma handle_missing_values_twice_witness :
  wf with_gaps /\ NoDup (columns with_gaps)
  /\ handle_missing_values (handle_missing_values with_gaps FillMean) FillMean
     = handle_missing_values with_gaps FillMean.
Proof.
  assert (W : wf with_gaps) by (repeat constructor).
  assert (N : NoDup (columns with_gaps)).
  { repeat constructor; simpl; intuition discriminate. }
  split; [exact W|]. split; [exact N|].
  exact (handle_missing_values_twice with_gaps FillMean W N).
Defined.

(* ------------------------------------------------------------------ *)
(** ** The gate [df.isnull().values.any()] *)

Lemma has_missing_false (df : DataFrame) :
  has_missing df = false
  <-> forall c x, In c (cols df) -> In x (cells (snd c)) -> x <> NA.
Proof.
  unfold has_missing. split.
  - intros H c x Hc Hx ->.
    assert (existsb (fun c => existsb is_na (cells (snd c))) (cols df) = true)
      as K; [|congruence].
    apply existsb_exists. exists c. split; [exact Hc|].
    apply existsb_is_na. exact Hx.
  - intros H.
    destruct (existsb (fun c => existsb is_na (cells (snd c))) (cols df))
      eqn:E; [|reflexivity].
    apply existsb_exists in E. destruct E as [c [Hc E]].
    apply existsb_is_na in E. exfalso. exact (H c NA Hc E eq_refl).
Qed.

Lemma fillna_zero_full (df : DataFrame) :
  forall c x, In c (cols (fillna_zero df)) -> In x (cells (snd c)) -> x <> NA.
Proof.
  intros c x Hc Hx ->. unfold fillna_zero in Hc. simpl in Hc.
  apply in_map_iff in Hc. destruct Hc as [c0 [<- _]]. simpl in Hx.
  rewrite cells_fillna_zero in Hx. apply in_map_iff in Hx.
  destruct Hx as [y [Hy _]]. exact (zero_if_missing_not_na y Hy).
Qed.

Lemma has_missing_count (df : DataFrame) :
  has_missing df = false -> count_missing df = 0.
Proof. intros H. apply count_missing_zero, has_missing_false, H. Qed.

Lemma count_missing_has (df : DataFrame) :
  count_missing df = 0 -> has_missing df = false.
Proof.
  intros H. apply has_missing_false. intros c x Hc Hx ->.
  unfold count_missing in H. revert H Hc. generalize (cols df) as l.
  induction l as [|c' l IH]; simpl; intros H Hc; [contradiction|].
  destruct Hc as [->|Hc]; [|apply IH; [lia|exact Hc]].
  assert (In NA (List.filter is_na (cells (snd c)))) as K
    by (apply filter_In; auto).
  destruct (List.filter is_na (cells (snd c))); [contradiction|].
  simpl in H. lia.
Qed.

(** X7: the script's own test for missing cells,
    [df.isnull().values.any()], is false exactly when the table has no
    missing cell; on a well-formed table it is false after the policies
    'Remove rows' and 'Fill with zero', so the selectbox is not offered
    again for their result. *)
Theorem has_missing_after_policy (df : DataFrame) :
  wf df ->
  (forall d, has_missing d = false <-> count_missing d = 0)
  /\ has_missing (handle_missing_values df RemoveRows) = false
  /\ has_missing (handle_missing_values df FillZero) = false.
Proof.
  intros Hwf. split.
  { intros d. split; [apply has_missing_count|apply count_missing_has]. }
  split.
  - rewrite handle_missing_values_remove_rows.
    apply count_missing_has, dropna_no_missing, Hwf.
  - rewrite handle_missing_values_fill_zero.
    apply has_missing_false, fillna_zero_full.
Qed.

Lemma has_missing_after_policy_witness :
  wf with_gaps
  /\ has_missing with_gaps = true
  /\ has_missing (handle_missing_values with_gaps RemoveRows) = false
  /\ has_missing (handle_missing_values with_gaps FillZero) = false.
Proof.
  assert (W : wf with_gaps) by (repeat constructor).
  split; [exact W|]. split; [reflexivity|].
  exact (proj2 (has_missing_after_policy with_gaps W)).
Defined.

(* ------------------------------------------------------------------ *)
(** ** The preview: [df.head()] *)

Lemma compress_below {A : Type} (k a : nat) (xs : list A) :
  compress (List.map (fun i => i <? k) (seq a (List.length xs))) xs
  = firstn (k - a) xs.
Proof.
  revert a. induction xs as [|x xs IH]; intros a; simpl.
  - destruct (k - a); reflexivity.
  - rewrite IH. destruct (Nat.ltb_spec a k) as [H|H].
    + replace (k - a) with (S (k - S a)) by lia. reflexivity.
    + replace (k - a) with 0 by lia. replace (k - S a) with 0 by lia.
      reflexivity.
Qed.

(** X8: the preview of a well-formed table is its first five rows, in
    order, or all of them when there are fewer: the index and the rows of
    [df.head()] are the first five of [df], the columns are the same. *)
Theorem head_spec (df : DataFrame) :
  wf df ->
  index (head df) = firstn 5 (index df)
  /\ rows (head df) = firstn 5 (rows df)
  /\ columns (head df) = columns df
  /\ nrows (head df) = Nat.min 5 (nrows df).
Proof.
  intros Hwf.
  assert (Hi : index (head df) = firstn 5 (index df)).
  { unfold head, take_rows, nrows. simpl. rewrite compress_below.
    reflexivity. }
  split; [exact Hi|]. split.
  { unfold head. rewrite rows_take_rows by exact Hwf.
    rewrite <- (length_rows df), compress_below. reflexivity. }
  split; [apply columns_take_rows|].
  unfold nrows. rewrite Hi. apply length_firstn.
Qed.

Lemma head_spec_witness :
  wf seven_rows
  /\ index (head seven_rows) = [0; 1; 2; 3; 4]
  /\ nrows (head seven_rows) = 5
  /\ nrows (head dup_rows) = 3.
Proof.
  assert (W : wf seven_rows) by (repeat constructor).
  split; [exact W|].
  destruct (head_spec seven_rows W) as [H1 [_ [_ H4]]].
  split; [exact H1|]. split; [exact H4|]. reflexivity.
Defined.

(* ------------------------------------------------------------------ *)
(** ** Cleaning the names and the row operations do not interfere *)

Lemma rows_clean_column_names (df : DataFrame) :
  rows (clean_column_names df) = rows df.
Proof.
  unfold rows. replace (nrows (clean_column_names df)) with (nrows df)
    by reflexivity.
  apply map_ext. apply row_at_clean_column_names.
Qed.

Lemma take_rows_clean_column_names (mask : list bool) (df : DataFrame) :
  take_rows mask (clean_column_names df)
  = clean_column_names (take_rows mask df).
Proof.
  apply frame_eq; [reflexivity|].
  rewrite cols_clean_column_names. unfold take_rows. cbn [cols].
  rewrite cols_clean_column_names, !map_map. reflexivity.
Qed.

Lemma has_missing_clean_column_names (df : DataFrame) :
  has_missing (clean_column_names df) = has_missing df.
Proof.
  unfold has_missing. rewrite cols_clean_column_names.
  generalize (cols df) as l. induction l as [|c l IH]; simpl;
    [reflexivity|].
  rewrite IH. reflexivity.
Qed.

(** X9: cleaning the column names commutes with the row operations and
    with the zero fill: removing duplicates, dropping the rows with a
    missing cell or filling with zero gives the same table, and the same
    message, whether the names were cleaned before or are cleaned after;
    and cleaning the names does not change whether the table has a missing
    cell. *)
Theorem clean_column_names_commutes (df : DataFrame) :
  remove_duplicates (clean_column_names df)
  = (clean_column_names (fst (remove_duplicates df)),
     snd (remove_duplicates df))
  /\ handle_missing_values (clean_column_names df) RemoveRows
     = clean_column_names (handle_missing_values df RemoveRows)
  /\ handle_missing_values (clean_column_names df) FillZero
     = clean_column_names (handle_missing_values df FillZero)
  /\ has_missing (clean_column_names df) = has_missing df.
Proof.
  assert (Hd : drop_duplicates (clean_column_names df)
               = clean_column_names (drop_duplicates df)).
  { unfold drop_duplicates, duplicated. rewrite rows_clean_column_names.
    apply take_rows_clean_column_names. }
  split.
  { unfold remove_duplicates. rewrite Hd. reflexivity. }
  split.
  { rewrite !handle_missing_values_remove_rows. unfold dropna.
    rewrite rows_clean_column_names. apply take_rows_clean_column_names. }
  split.
  { rewrite !handle_missing_values_fill_zero. apply frame_eq; [reflexivity|].
    rewrite cols_clean_column_names. unfold fillna_zero. cbn [cols].
    rewrite cols_clean_column_names, !map_map. reflexivity. }
  apply has_missing_clean_column_names.
Qed.

(* ------------------------------------------------------------------ *)
(** ** Which reader parses the file *)

Lemma endswith_unfold (s suffix : string) :
  endswith s suffix
  = (String.eqb s suffix
     || match s with
        | EmptyString => false
        | String _ s' => endswith s' suffix
        end).
Proof. destruct s; reflexivity. Qed.

(** [endswith] is [str.endswith]: the string is some prefix followed by
    the suffix. *)
Lemma endswith_spec (s suffix : string) :
  endswith s suffix = true <-> exists p, s = (p ++ suffix)%string.
Proof.
  split.
  - induction s as [|c s IH]; rewrite endswith_unfold;
      intros H; apply orb_true_iff in H; destruct H as [H|H].
    + apply String.eqb_eq in H. exists EmptyString. exact H.
    + discriminate.
    + apply String.eqb_eq in H. exists EmptyString. exact H.
    + destruct (IH H) as [p ->]. exists (String c p). reflexivity.
  - intros [p ->]. induction p as [|c p IH]; rewrite endswith_unfold.
    + simpl. rewrite String.eqb_refl. reflexivity.
    + simpl. rewrite IH. apply orb_true_r.
Qed.

(* ------------------------------------------------------------------ *)
(** ** What a run without exception puts on the page *)

Section Pipeline.

Variable read_csv read_excel : string -> DataFrame.
Variable to_csv to_excel : DataFrame -> string.

(** X10: the CSV reader parses exactly the files whose name is some prefix
    followed by [.csv], in lower case; every other name goes to the Excel
    reader. *)
Theorem reader_by_suffix (f : UploadedFile) :
  ((exists p, name f = (p ++ ".csv")%string)
   /\ uploaded_frame read_csv read_excel f = read_csv (content f))
  \/ ((forall p, name f <> (p ++ ".csv")%string)
      /\ uploaded_frame read_csv read_excel f = read_excel (content f)).
Proof.
  unfold uploaded_frame. destruct (endswith (name f) ".csv") eqn:E.
  - left. split; [apply endswith_spec, E|reflexivity].
  - right. split; [|reflexivity]. intros p Hp.
    assert (endswith (name f) ".csv" = true) as K
      by (apply endswith_spec; exists p; exact Hp).
    congruence.
Qed.

Lemma bind_value {A B : Type} (tr : list item) (a : A) (k : A -> Run B) :
  bind (tr, inr a) k = (tr ++ fst (k a), snd (k a)).
Proof. unfold bind. destruct (k a). reflexivity. Qed.

Lemma calm_call {A : Type} (s : stage) (result : A) :
  call no_fault s result = ([Called s], inr result).
Proof. reflexivity. Qed.

Lemma script_calm_page (f : UploadedFile) (w : Widgets) :
  script read_csv read_excel to_csv to_excel no_fault (Some f) w
  = calm_page to_csv to_excel (uploaded_frame read_csv read_excel f) w.
Proof.
  unfold script, body, calm_page, cleaned_frame, figure_of.
  fold (uploaded_frame read_csv read_excel f).
  generalize (uploaded_frame read_csv read_excel f) as df. intros df.
  unfold show, ret. rewrite !calm_call.
  destruct (clean_cols w), (remove_dups w);
    repeat (rewrite ?calm_call, ?bind_value; cbn [fst snd]);
    match goal with
    | |- context [has_missing ?d] => destruct (has_missing d)
    end;
    repeat (rewrite ?calm_call, ?bind_value; cbn [fst snd]);
    match goal with
    | |- context [0 <? ?n] => destruct (0 <? n)
    end;
    repeat (rewrite ?calm_call, ?bind_value; cbn [fst snd]);
    reflexivity.
Qed.

Lemma downloads_of_calm_page (df : DataFrame) (w : Widgets) :
  List.filter is_download (calm_page to_csv to_excel df w)
  = [Shown (StDownloadButton "Download as CSV" (to_csv (cleaned_frame df w))
              "cleaned_data.csv" "text/csv");
     Shown (StDownloadButton "Download as Excel"
              (to_excel (cleaned_frame df w))
              "cleaned_data.xlsx" "application/vnd.ms-excel")].
Proof.
  unfold calm_page. rewrite !filter_app.
  destruct (clean_cols w), (remove_dups w), (has_missing _), (0 <? _);
    reflexivity.
Qed.






End Pipeline.

Lemma wf_cleaned_before_policy (df : DataFrame) (w : Widgets) :
  wf df ->
  wf (if remove_dups w
      then fst (remove_duplicates
                  (if clean_cols w then clean_column_names df else df))
      else if clean_cols w then clean_column_names df else df).
Proof.
  intros Hwf.
  assert (wf (if clean_cols w then clean_column_names df else df)) as H1
    by (destruct (clean_cols w); [apply wf_clean_column_names|]; exact Hwf).
  destruct (remove_dups w); [apply wf_take_rows|]; exact H1.
Qed.

Lemma cleaned_frame_no_missing (df : DataFrame) (w : Widgets) :
  wf df ->
  missing_choice w = 0 \/ missing_choice w = 3 ->
  count_missing (cleaned_frame df w) = 0
  /\ has_missing (cleaned_frame df w) = false.
Proof.
  intros Hwf Hm.
  assert (H : has_missing (cleaned_frame df w) = false).
  { unfold cleaned_frame.
    pose proof (wf_cleaned_before_policy df w Hwf) as W.
    set (d := if remove_dups w then _ else _) in *.
    destruct (has_missing d) eqn:E; [|exact E].
    destruct Hm as [-> | ->].
    - change (has_missing (dropna d) = false).
      apply count_missing_has, dropna_no_missing, W.
    - change (has_missing (fillna_zero d) = false).
      apply has_missing_false, fillna_zero_full. }
  split; [apply has_missing_count, H|exact H].
Qed.




Section Exported.

Variable read_csv read_excel : string -> DataFrame.
Variable to_csv to_excel : DataFrame -> string.

(** X13: when no call raises, the upload is well formed and the policy
    selected is 'Remove rows' or 'Fill with zero', the table that the two
    download buttons encode has no missing cell, whichever checkboxes are
    ticked. *)
Theorem exported_table_complete (f : UploadedFile) (w : Widgets) :
  wf (uploaded_frame read_csv read_excel f) ->
  missing_choice w = 0 \/ missing_choice w = 3 ->
  let final := cleaned_frame (uploaded_frame read_csv read_excel f) w in
  List.filter is_download
    (script read_csv read_excel to_csv to_excel no_fault (Some f) w)
  = [Shown (StDownloadButton "Download as CSV" (to_csv final)
              "cleaned_data.csv" "text/csv");
     Shown (StDownloadButton "Download as Excel" (to_excel final)
              "cleaned_data.xlsx" "application/vnd.ms-excel")]
  /\ count_missing final = 0
  /\ has_missing final = false.
Proof.
  intros Hwf Hm final. split.
  - rewrite script_calm_page. apply downloads_of_calm_page.
  - apply cleaned_frame_no_missing; assumption.
Qed.


End Exported.

Lemma exported_table_complete_witness :
  wf (uploaded_frame (fun _ => with_gaps) (fun _ => with_gaps) report_csv)
  /\ count_missing
       (cleaned_frame
          (uploaded_frame (fun _ => with_gaps) (fun _ => with_gaps) report_csv)
          (mkWidgets true true 3 0 0 0)) = 0.
Proof.
  assert (W : wf (uploaded_frame (fun _ => with_gaps) (fun _ => with_gaps)
                    report_csv)) by (repeat constructor).
  split; [exact W|].
  pose proof (exported_table_complete (fun _ => with_gaps)
                (fun _ => with_gaps) (fun _ => "csv") (fun _ => "xlsx")
                report_csv (mkWidgets true true 3 0 0 0) W
                (or_intror eq_refl)) as H.
  cbv zeta in H. destruct H as [_ [H _]]. exact H.
Defined.

(* ------------------------------------------------------------------ *)
(** ** Names that collide *)

Lemma isspace_lower_char (c : ascii) :
  Str.isspace (Str.lower_char c) = Str.isspace c.
Proof. each_char c; reflexivity. Qed.

Lemma lower_char_twice (c : ascii) :
  Str.lower_char (Str.lower_char c) = Str.lower_char c.
Proof. each_char c; reflexivity. Qed.

Lemma lstrip_map (f : ascii -> ascii) (s : string) :
  (forall c, Str.isspace (f c) = Str.isspace c) ->
  Str.lstrip (Str.map f s) = Str.map f (Str.lstrip s).
Proof.
  intros Hf. induction s as [|c s IH]; simpl; [reflexivity|].
  rewrite Hf. destruct (Str.isspace c); [exact IH|reflexivity].
Qed.

Lemma rstrip_map (f : ascii -> ascii) (s : string) :
  (forall c, Str.isspace (f c) = Str.isspace c) ->
  Str.rstrip (Str.map f s) = Str.map f (Str.rstrip s).
Proof.
  intros Hf. induction s as [|c s IH]; simpl; [reflexivity|].
  rewrite IH, Hf. destruct (Str.rstrip s); simpl; [|reflexivity].
  destruct (Str.isspace c); reflexivity.
Qed.

Lemma strip_lower (s : string) :
  Str.strip (Str.lower s) = Str.lower (Str.strip s).
Proof.
  unfold Str.strip, Str.lower.
  rewrite lstrip_map, rstrip_map by apply isspace_lower_char. reflexivity.
Qed.

Lemma str_map_map (f g : ascii -> ascii) (s : string) :
  Str.map g (Str.map f s) = Str.map (fun c => g (f c)) s.
Proof.
  induction s as [|c s IH]; simpl; [reflexivity|]. rewrite IH. reflexivity.
Qed.

Lemma str_map_ext (f g : ascii -> ascii) (s : string) :
  (forall c, f c = g c) -> Str.map f s = Str.map g s.
Proof.
  intros H. induction s as [|c s IH]; simpl; [reflexivity|].
  rewrite H, IH. reflexivity.
Qed.

Lemma clean_name_lower (n : string) : clean_name (Str.lower n) = clean_name n.
Proof.
  rewrite !clean_name_unfold, strip_lower. unfold Str.lower.
  rewrite str_map_map. f_equal. apply str_map_ext. intros c.
  rewrite lower_char_twice. reflexivity.
Qed.

(** X15: cleaning ignores case, so it can make two column names equal: two
    names with the same lowercase form are cleaned to the same name. *)
Theorem clean_name_ignores_case (n1 n2 : string) :
  Str.lower n1 = Str.lower n2 -> clean_name n1 = clean_name n2.
Proof.
  intros H. rewrite <- (clean_name_lower n1), <- (clean_name_lower n2), H.
  reflexivity.
Qed.

Lemma clean_name_ignores_case_witness :
  Str.lower "Total" = Str.lower "total"
  /\ "Total" <> "total"
  /\ clean_name "Total" = clean_name "total".
Proof.
  split; [reflexivity|]. split; [discriminate|].
  exact (clean_name_ignores_case "Total" "total" eq_refl).
Defined.

(* ------------------------------------------------------------------ *)
(** ** A failure of the last call *)

Section LastCall.

Variable read_csv read_excel : string -> DataFrame.
Variable to_csv to_excel : DataFrame -> string.
Variable fault : stage -> option string.

Lemma call_returns {A : Type} (s : stage) (result : A) :
  fault s = None -> call fault s result = ([Called s], inr result).
Proof. unfold call. intros ->. reflexivity. Qed.

Lemma call_raises {A : Type} (s : stage) (e : string) (result : A) :
  fault s = Some e -> call fault s result = ([Called s], inl e).
Proof. unfold call. intros ->. reflexivity. Qed.

(** X16: when the Excel export is the only call that raises, everything
    else is on the page as in a run without exception, the CSV download
    button included; the error message, with the description of the
    exception, stands where the Excel button would be. *)
Theorem excel_export_failure (f : UploadedFile) (w : Widgets) (e : string) :
  (forall s, s <> ExportExcel -> fault s = None) ->
  fault ExportExcel = Some e ->
  script read_csv read_excel to_csv to_excel fault (Some f) w
  = removelast
      (script read_csv read_excel to_csv to_excel no_fault (Some f) w)
    ++ [Shown (StError ("An error occurred: " ++ e))].
Proof.
  intros Hok He. rewrite script_calm_page.
  assert (C1 : forall A (r : A), call fault Ingest r = ([Called Ingest], inr r))
    by (intros; apply call_returns, Hok; discriminate).
  assert (C2 : forall A (r : A),
             call fault Preview r = ([Called Preview], inr r))
    by (intros; apply call_returns, Hok; discriminate).
  assert (C3 : forall A (r : A),
             call fault CleanNames r = ([Called CleanNames], inr r))
    by (intros; apply call_returns, Hok; discriminate).
  assert (C4 : forall A (r : A), call fault Dedup r = ([Called Dedup], inr r))
    by (intros; apply call_returns, Hok; discriminate).
  assert (C5 : forall A (r : A),
             call fault Missing r = ([Called Missing], inr r))
    by (intros; apply call_returns, Hok; discriminate).
  assert (C6 : forall A (r : A), call fault Chart r = ([Called Chart], inr r))
    by (intros; apply call_returns, Hok; discriminate).
  assert (C7 : forall A (r : A),
             call fault ExportCsv r = ([Called ExportCsv], inr r))
    by (intros; apply call_returns, Hok; discriminate).
  assert (C8 : forall A (r : A),
             call fault ExportExcel r = ([Called ExportExcel], inl e))
    by (intros; apply call_raises, He).
  unfold script, body, calm_page, cleaned_frame, figure_of.
  fold (uploaded_frame read_csv read_excel f).
  generalize (uploaded_frame read_csv read_excel f) as df. intros df.
  unfold show, ret. rewrite C1.
  destruct (clean_cols w), (remove_dups w);
    repeat (rewrite ?C2, ?C3, ?C4, ?C5, ?C6, ?C7, ?C8, ?bind_value;
            cbn [fst snd]);
    match goal with
    | |- context [has_missing ?d] => destruct (has_missing d)
    end;
    repeat (rewrite ?C2, ?C3, ?C4, ?C5, ?C6, ?C7, ?C8, ?bind_value;
            cbn [fst snd]);
    match goal with
    | |- context [0 <? ?n] => destruct (0 <? n)
    end;
    repeat (rewrite ?C2, ?C3, ?C4, ?C5, ?C6, ?C7, ?C8, ?bind_value;
            cbn [fst snd]);
    reflexivity.
Qed.

End LastCall.

Lemma excel_export_failure_witness :
  let fault := fun s => match s with
                        | ExportExcel => Some "No module named openpyxl"
                        | _ => None
                        end in
  (forall s, s <> ExportExcel -> fault s = None)
  /\ script (fun _ => dup_rows) (fun _ => dup_rows)
       (fun _ => "csv") (fun _ => "xlsx") fault (Some report_csv) all_options
     = removelast
         (script (fun _ => dup_rows) (fun _ => dup_rows)
            (fun _ => "csv") (fun _ => "xlsx") no_fault (Some report_csv)
            all_options)
       ++ [Shown (StError "An error occurred: No module named openpyxl")].
Proof.
  intros fault.
  assert (H : forall s, s <> ExportExcel -> fault s = None)
    by (intros []; intros Hs; try reflexivity; congruence).
  split; [exact H|].
  exact (excel_export_failure (fun _ => dup_rows) (fun _ => dup_rows)
           (fun _ => "csv") (fun _ => "xlsx") fault report_csv all_options
           "No module named openpyxl" H eq_refl).
Defined.

(* ------------------------------------------------------------------ *)
(** ** A table without missing cells *)

Lemma series_fillna_complete (v : option Qc) (s : Series) :
  (forall x, In x (cells s) -> x <> NA) -> series_fillna v s = s.
Proof.
  intros H. destruct s as [xs|xs|xs]; simpl in *; [|reflexivity|]; f_equal;
    rewrite <- (map_id xs) at 2; apply map_ext_in; intros [x|] Hx;
    try reflexivity; exfalso.
  - apply (H NA); [|reflexivity].
    apply in_map_iff. exists None. auto.
  - apply (H NA); [|reflexivity].
    apply in_map_iff. exists None. auto.
Qed.

Lemma dropna_complete (df : DataFrame) :
  wf df -> has_missing df = false -> dropna df = df.
Proof.
  intros Hwf Hm. unfold dropna. apply take_rows_all_true.
  - exact Hwf.
  - apply Forall_map, Forall_forall. intros r Hr. apply negb_true_iff.
    destruct (existsb is_na r) eqn:E; [|reflexivity]. exfalso.
    apply existsb_is_na in E. unfold rows in Hr. apply in_map_iff in Hr.
    destruct Hr as [i [<- Hi]]. apply in_seq in Hi.
    unfold row_at in E. apply in_map_iff in E.
    destruct E as [c [Ec Hc]].
    unfold wf in Hwf. rewrite Forall_forall in Hwf.
    pose proof (Hwf c Hc) as Hlen. unfold series_len in Hlen.
    apply (proj1 (has_missing_false df) Hm c NA Hc); [|reflexivity].
    rewrite <- Ec. apply nth_In. lia.
  - rewrite length_map. apply length_rows.
Qed.

Lemma fill_numeric_complete (stat : Series -> option Qc) (df : DataFrame) :
  NoDup (columns df) -> has_missing df = false -> fill_numeric stat df = df.
Proof.
  intros Hnd Hm. destruct (cols_fill_numeric stat df Hnd) as [Hc Hi].
  apply frame_eq; [exact Hi|]. rewrite Hc.
  rewrite <- (map_id (cols df)) at 2. apply map_ext_in. intros [n s] Hin.
  simpl. destruct (is_number_dtype s); [|reflexivity].
  unfold fill_series. rewrite series_fillna_complete; [reflexivity|].
  intros x Hx. exact (proj1 (has_missing_false df) Hm (n, s) x Hin Hx).
Qed.

Lemma fillna_zero_complete (df : DataFrame) :
  has_missing df = false -> fillna_zero df = df.
Proof.
  intros Hm. apply frame_eq; [reflexivity|]. unfold fillna_zero. simpl.
  rewrite <- (map_id (cols df)) at 2. apply map_ext_in. intros [n s] Hin.
  simpl. rewrite series_fillna_complete; [reflexivity|].
  intros x Hx. exact (proj1 (has_missing_false df) Hm (n, s) x Hin Hx).
Qed.

(** X17: a well-formed table with distinct column names and no missing cell
    comes back from [handle_missing_values] as it is, whatever the
    method. *)
Theorem handle_missing_values_complete (df : DataFrame) (method : string) :
  wf df -> NoDup (columns df) -> has_missing df = false ->
  handle_missing_values df method = df.
Proof.
  intros Hwf Hnd Hm.
  destruct (handle_missing_values_cases df method)
    as [[_ ->]|[[_ ->]|[[_ ->]|[[_ ->]|[_ [_ [_ [_ ->]]]]]]]].
  - apply dropna_complete; assumption.
  - apply fill_numeric_complete; assumption.
  - apply fill_numeric_complete; assumption.
  - apply fillna_zero_complete; assumption.
  - reflexivity.
Qed.

Lemma handle_missing_values_complete_witness :
  wf dup_rows /\ NoDup (columns dup_rows) /\ has_missing dup_rows = false
  /\ handle_missing_values dup_rows "Fill with mean" = dup_rows.
Proof.
  assert (W : wf dup_rows) by (repeat constructor).
  assert (N : NoDup (columns dup_rows)).
  { repeat constructor; simpl; intuition discriminate. }
  split; [exact W|]. split; [exact N|]. split; [reflexivity|].
  exact (handle_missing_values_complete dup_rows "Fill with mean" W N
           eq_refl).
Defined.
